(** * Product Stock API: a shallow embedding of [main.py] and its properties

    The service keeps a catalog of products in one JSON file, [STOCK_FILE],
    loads it afresh for every request and writes it back, after a timestamped
    backup, when a stock item is consumed.

    Scope of the model.
    - The catalog is typed as the data model has it ([StockItem], [Product],
      a dict from category names to product lists).  A store file holds such
      a catalog or is not JSON at all ([json.load] raises); JSON of another
      shape is outside the model.
    - File contents are text: a file that does not decode is outside the
      model, and the platform's default encoding, in which the backup is
      copied, is taken to be UTF-8.  Reading goes through Python's text mode,
      whose default universal-newlines translation is written out in
      [read_text].
      A Python [str] is modelled by its UTF-8 bytes; a lone surrogate, which
      strict UTF-8 has no bytes for, by the three bytes that the
      [surrogatepass] handler gives it (ED, then A0..BF, then one more).
      [json.load] accepts such strings (an escape like \ud800 in the file),
      and the write of one into the utf-8 stream of [save_stock_data] raises:
      [encodable] tells the catalogs whose dump goes through.  Failures of
      the file system itself (permissions, full disk) are not modelled:
      [open] and [read] succeed.
    - [json.dump] and [json.load] are library code: they are the two
      operations of the class [JSON], and what the proofs need of them is the
      class [JSONLaws].
    - [datetime.now()] is an input of every handler that may read the clock.
    - Only the status code of an [HTTPException] is kept, not its detail.
    - The handler of [GET /], a constant that touches no file, is left out. *)

From Stdlib Require Import ZArith String Ascii List Lia.
From Stdlib Require Import Floats.SpecFloat.
From stdpp Require Import base option list strings gmap countable.

Local Open Scope string_scope.

(** ** Data model *)

(** [class StockItem(BaseModel)] *)
Record StockItem := { license : string }.

(** [class Product(BaseModel)].  [price] is a Python float, an IEEE-754
    binary64 value; it is only ever carried, never computed with. *)
Record Product := {
  id : Z;
  name : string;
  image : string;
  imagehover : option string;
  description : string;
  price : spec_float;
  delivery_method : string;
  stock : list StockItem
}.

(** The loaded document: a dict from category name to the list of its
    products.  A Python dict iterates in insertion order, which the
    association list keeps; it holds every key once ([dict_keys_unique]). *)
Definition Catalog : Type := list (string * list Product).

Definition dict_keys_unique (stock_data : Catalog) : Prop :=
  NoDup (map fst stock_data).

(** [key in d] and [d[key]] *)
Fixpoint dict_get (stock_data : Catalog) (key : string) : option (list Product) :=
  match stock_data with
  | [] => None
  | (category, products) :: rest =>
      if String.eqb category key then Some products else dict_get rest key
  end.

(** [product["stock"] = new_stock], every other field kept. *)
Definition with_stock (product : Product) (new_stock : list StockItem) : Product :=
  {| id := id product;
     name := name product;
     image := image product;
     imagehover := imagehover product;
     description := description product;
     price := price product;
     delivery_method := delivery_method product;
     stock := new_stock |}.

(** The floats [10.0] and [30.0]. *)
Definition float_10 : spec_float := S754_finite false 5629499534213120 (-49).
Definition float_30 : spec_float := S754_finite false 8444249301319680 (-48).

(** [default_data] of [load_stock_data] *)
Definition default_data : Catalog :=
  [ ("BloodStrike",
     [ {| id := 1;
          name := "Blood Strike Account";
          image := "https://pic.bittopup.com/apiUpload/2ccf31c25175abf452e9766912a42c73.jpg";
          imagehover := Some "https://imgop.itemku.com/?url=https%3A%2F%2Fd1x91p7vw3vuq8.cloudfront.net%2Fitemku-upload%2F2025715%2Fbu7sesjsnbxx2ftm9kc8q_thumbnail.jpg&w=1033&q=10";
          description := "Best Account BloodStrike";
          price := float_10;
          delivery_method := "instant";
          stock := [ {| license := "email@example.com:password123" |};
                     {| license := "email2@example.com:password456" |} ] |} ]);
    ("Window Protection 11",
     [ {| id := 2;
          name := "Window Protection";
          image := "https://pic.bittopup.com/apiUpload/2ccf31c25175abf452e9766912a42c73.jpg";
          imagehover := Some "https://encrypted-tbn0.gstatic.com/images?q=tbn:ANd9GcQ4NOVVkcMqtvEutXTu_StAuIwGGvO9DevFkg&s";
          description := "Best Window Protection";
          price := float_30;
          delivery_method := "Waiting";
          stock := [ {| license := "email@example.com:password123" |};
                     {| license := "email2@example.com:password456" |};
                     {| license := "email2@example.com:password456" |};
                     {| license := "email2@example.com:password456" |} ] |} ]) ].

(** ** The clock *)

(** A reading of [datetime.now()], to the second. *)
Record datetime := {
  year : nat; month : nat; day : nat;
  hour : nat; minute : nat; second : nat
}.

Definition digit (n : nat) : ascii := ascii_of_nat (48 + n mod 10).

Definition zero_pad2 (n : nat) : string :=
  String (digit (n / 10)) (String (digit n) "").

Definition zero_pad4 (n : nat) : string :=
  String (digit (n / 1000)) (String (digit (n / 100)) (zero_pad2 n)).

(** [now.strftime("%Y%m%d_%H%M%S")], for the four-digit years a clock gives. *)
Definition strftime (now : datetime) : string :=
  zero_pad4 (year now) ++ zero_pad2 (month now) ++ zero_pad2 (day now) ++ "_"
  ++ zero_pad2 (hour now) ++ zero_pad2 (minute now) ++ zero_pad2 (second now).

(** ** Files *)

(** [STOCK_FILE] holds its text when it exists; [BACKUP_DIR] maps the name of
    each backup file to its text. *)
Record FileSystem := {
  STOCK_FILE : option string;
  BACKUP_DIR : gmap string string
}.

Definition CR : ascii := ascii_of_nat 13.
Definition LF : ascii := ascii_of_nat 10.

(** What [open(path, 'r').read()] returns for a file holding [s]: with the
    default [newline=None] every line ending, "\r\n" or a lone "\r", is
    handed to the caller as "\n".  (Writing in text mode on POSIX puts the
    text out as it is.) *)
Fixpoint read_text (s : string) : string :=
  match s with
  | EmptyString => EmptyString
  | String c rest =>
      if Ascii.eqb c CR then
        match rest with
        | String c' rest' =>
            if Ascii.eqb c' LF then String LF (read_text rest')
            else String LF (read_text rest)
        | EmptyString => String LF EmptyString
        end
      else String c (read_text rest)
  end.

(** The first byte of a surrogate in generalised UTF-8, and the range of the
    second. *)
Definition surrogate_lead : ascii := ascii_of_nat 237.

Definition surrogate_second (c : ascii) : bool :=
  ((160 <=? nat_of_ascii c) && (nat_of_ascii c <=? 191))%nat.

(** The string holds a surrogate code point: [s.encode('utf-8')] raises
    [UnicodeEncodeError]. *)
Fixpoint has_surrogate (s : string) : bool :=
  match s with
  | EmptyString => false
  | String c rest =>
      (Ascii.eqb c surrogate_lead
       && match rest with
          | String c' _ => surrogate_second c'
          | EmptyString => false
          end)
      || has_surrogate rest
  end.

Definition encodable_item (item : StockItem) : bool :=
  negb (has_surrogate (license item)).

Definition encodable_product (product : Product) : bool :=
  negb (has_surrogate (name product))
  && negb (has_surrogate (image product))
  && match imagehover product with
     | Some url => negb (has_surrogate url)
     | None => true
     end
  && negb (has_surrogate (description product))
  && negb (has_surrogate (delivery_method product))
  && forallb encodable_item (stock product).

(** Every string that [json.dump(..., ensure_ascii=False)] writes out for
    the catalog, keys and values, can be encoded: the dump into the utf-8
    stream goes through.  (Numbers are written in ASCII.) *)
Definition encodable (stock_data : Catalog) : bool :=
  forallb (fun entry => negb (has_surrogate (fst entry))
                        && forallb encodable_product (snd entry))
          stock_data.

(** [json.dump(data, f, indent=2, ensure_ascii=False)] as the text it has put
    into [f] when it returns or, for a catalog that is not [encodable], when
    the write of the offending chunk raises; and [json.load(f)] on the text
    it reads ([None]: it raises). *)
Class JSON := {
  json_dump : Catalog -> string;
  json_load : string -> option Catalog
}.

(** ** Exceptions and the request monad *)

Inductive exn :=
| HTTPException (status_code : Z)
| JSONDecodeError
| FileNotFoundError
| UnicodeEncodeError.

Inductive outcome (A : Type) :=
| Return (a : A)
| Raise (e : exn).
Arguments Return {A} a.
Arguments Raise {A} e.

(** A computation runs on the file system and leaves it as it made it, also
    when it raises: nothing is rolled back. *)
Definition IO (A : Type) : Type := FileSystem -> outcome A * FileSystem.

Definition ret {A} (a : A) : IO A := fun fs => (Return a, fs).

Definition raise {A} (e : exn) : IO A := fun fs => (Raise e, fs).

Definition bind {A B} (m : IO A) (k : A -> IO B) : IO B :=
  fun fs =>
    match m fs with
    | (Return a, fs') => k a fs'
    | (Raise e, fs') => (Raise e, fs')
    end.

Definition try_except {A} (m : IO A) (handler : exn -> IO A) : IO A :=
  fun fs =>
    match m fs with
    | (Return a, fs') => (Return a, fs')
    | (Raise e, fs') => handler e fs'
    end.

Notation "'let!' x ':=' m 'in' k" := (bind m (fun x => k))
  (at level 10, x name, m at level 100, k at level 200).

Notation "m ';;' k" := (bind m (fun _ => k))
  (at level 100, k at level 200, right associativity).

(** [except Exception as e: raise HTTPException(status_code=500, ...)];
    an [HTTPException] is an [Exception] too. *)
Definition except_Exception_500 {A} (m : IO A) : IO A :=
  try_except m (fun _ => raise (HTTPException 500)).

(** [except HTTPException: raise] followed by
    [except Exception as e: raise HTTPException(status_code=500, ...)] *)
Definition except_HTTPException_reraise {A} (m : IO A) : IO A :=
  try_except m (fun e =>
    match e with
    | HTTPException status_code => raise (HTTPException status_code)
    | _ => raise (HTTPException 500)
    end).

(** [STOCK_FILE.exists()] *)
Definition STOCK_FILE_exists : IO bool :=
  fun fs => (Return (bool_decide (is_Some (STOCK_FILE fs))), fs).

(** [open(STOCK_FILE, 'r').read()] *)
Definition read_STOCK_FILE : IO string :=
  fun fs =>
    match STOCK_FILE fs with
    | Some content => (Return (read_text content), fs)
    | None => (Raise FileNotFoundError, fs)
    end.

(** [open(BACKUP_DIR / file_name, 'w').write(text)]: a file of that name
    already there is overwritten. *)
Definition write_backup (file_name text : string) : IO unit :=
  fun fs =>
    (Return tt,
     {| STOCK_FILE := STOCK_FILE fs;
        BACKUP_DIR := <[file_name := text]> (BACKUP_DIR fs) |}).

(** ** The store *)

Section Store.
Context {json : JSON}.

(** [with open(STOCK_FILE, 'w', encoding='utf-8') as f: json.dump(data, f, ...)].
    Opening truncates the file and the dump writes into it; when a string of
    [data] cannot be encoded the write raises and the file keeps what had been
    written. *)
Definition dump_to_STOCK_FILE (data : Catalog) : IO unit :=
  fun fs =>
    (if encodable data then Return tt else Raise UnicodeEncodeError,
     {| STOCK_FILE := Some (json_dump data); BACKUP_DIR := BACKUP_DIR fs |}).

(** [save_stock_data] *)
Definition save_stock_data (data : Catalog) (now : datetime) : IO bool :=
  except_Exception_500 (
    (* Create backup *)
    (let! file_exists := STOCK_FILE_exists in
     if file_exists then
       let backup_time := strftime now in
       let backup_file := "stock_backup_" ++ backup_time ++ ".json" in
       let! original := read_STOCK_FILE in
       write_backup backup_file original
     else ret tt) ;;
    (* Save new data *)
    dump_to_STOCK_FILE data ;;
    ret true).

(** [load_stock_data] *)
Definition load_stock_data (now : datetime) : IO Catalog :=
  except_Exception_500 (
    let! file_exists := STOCK_FILE_exists in
    if file_exists then
      let! text := read_STOCK_FILE in
      match json_load text with
      | Some data => ret data
      | None => raise JSONDecodeError
      end
    else
      (* Create default structure if file doesn't exist *)
      save_stock_data default_data now ;;
      ret default_data).

End Store.

(** ** Response bodies *)

(** [GET /api/health] *)
Inductive HealthResponse :=
| healthy (timestamp : datetime)
| unhealthy (error : exn).

(** An entry of [GET /api/categories] *)
Record CategorySummary := {
  summary_name : string;
  product_count : nat
}.

(** [GET /api/categories/{category_name}] *)
Record CategoryProducts := {
  listed_category : string;
  listed_products : list Product
}.

(** [GET /api/stock/{product_id}] *)
Record StockSummary := {
  summary_product_id : Z;
  summary_product_name : string;
  summary_category : string;
  stock_count : nat;
  available : bool;
  summary_delivery_method : string
}.

(** [POST /api/stock/consume/{product_id}] *)
Record ConsumeResponse := {
  success : bool;
  product_id : Z;
  product_name : string;
  category : string;
  consumed_license : StockItem;
  remaining_stock : nat;
  message : string
}.

(** An entry of [low_stock_products] *)
Record LowStockProduct := {
  low_id : Z;
  low_name : string;
  low_category : string;
  low_stock : nat;
  low_price : spec_float
}.

(** [GET /api/dashboard] *)
Record DashboardStats := {
  total_categories : nat;
  total_products : nat;
  total_stock_items : nat;
  low_stock_products : list LowStockProduct;
  low_stock_count : nat;
  updated_at : datetime
}.

(** ** The loops of the handlers *)

Local Open Scope nat_scope.
Local Open Scope list_scope.

(** [for category, products in stock_data.items(): all_products.extend(products)] *)
Definition extend_all (stock_data : Catalog) : list Product :=
  fold_left (fun all_products '(category, products) => all_products ++ products)
            stock_data [].

(** [for product in products: if product["id"] == product_id: return ...] *)
Fixpoint scan_products (products : list Product) (product_id : Z) : option Product :=
  match products with
  | [] => None
  | product :: rest =>
      if (id product =? product_id)%Z then Some product
      else scan_products rest product_id
  end.

(** The loop over [stock_data.items()] around it, shared by [get_product]
    and [get_product_stock]; the category of the hit is at hand too. *)
Fixpoint scan_catalog (stock_data : Catalog) (product_id : Z)
  : option (string * Product) :=
  match stock_data with
  | [] => None
  | (category, products) :: rest =>
      match scan_products products product_id with
      | Some product => Some (category, product)
      | None => scan_catalog rest product_id
      end
  end.

(** [categories.append({"name": ..., "product_count": len(products)})] *)
Definition append_categories (stock_data : Catalog) : list CategorySummary :=
  fold_left (fun categories '(category_name, products) =>
               categories ++ [ {| summary_name := category_name;
                                  product_count := length products |} ])
            stock_data [].

(** How the inner loop of [consume_stock_item] ends: at the first product
    with the id, whose stock is popped in place or found empty, or at the
    end of the list. *)
Inductive consume_scan (A : Type) :=
| Popped (updated : A) (product : Product) (consumed : StockItem)
| OutOfStock (product : Product)
| NoMatch.
Arguments Popped {A} updated product consumed.
Arguments OutOfStock {A} product.
Arguments NoMatch {A}.

(** The inner loop.  [product["stock"].pop(0)] changes the product inside
    [products]: [updated] is the list with that product in its new state,
    [product] the product after the pop. *)
Fixpoint consume_products (products : list Product) (product_id : Z)
  : consume_scan (list Product) :=
  match products with
  | [] => NoMatch
  | product :: rest =>
      if (id product =? product_id)%Z then
        match stock product with
        | consumed_license :: remaining =>
            let product' := with_stock product remaining in
            Popped (product' :: rest) product' consumed_license
        | [] => OutOfStock product
        end
      else
        match consume_products rest product_id with
        | Popped rest' product' consumed_license =>
            Popped (product :: rest') product' consumed_license
        | OutOfStock product' => OutOfStock product'
        | NoMatch => NoMatch
        end
  end.

(** The outer loop: the catalog after the pop, and the category of the hit. *)
Fixpoint consume_catalog (stock_data : Catalog) (product_id : Z)
  : consume_scan (Catalog * string) :=
  match stock_data with
  | [] => NoMatch
  | (category, products) :: rest =>
      match consume_products products product_id with
      | Popped products' product' consumed_license =>
          Popped ((category, products') :: rest, category) product' consumed_license
      | OutOfStock product' => OutOfStock product'
      | NoMatch =>
          match consume_catalog rest product_id with
          | Popped (rest', category') product' consumed_license =>
              Popped ((category, products) :: rest', category')
                     product' consumed_license
          | OutOfStock product' => OutOfStock product'
          | NoMatch => NoMatch
          end
      end
  end.

(** The counters of [get_dashboard_stats] *)
Record DashboardCounters := {
  count_products : nat;
  count_stock : nat;
  low_products : list LowStockProduct
}.

(** One turn of the inner loop of [get_dashboard_stats] *)
Definition dashboard_product (category : string) (acc : DashboardCounters)
  (product : Product) : DashboardCounters :=
  let stock_count := length (stock product) in
  let total_stock := count_stock acc + stock_count in
  if stock_count <=? 3 then (* Low stock threshold *)
    {| count_products := count_products acc;
       count_stock := total_stock;
       low_products :=
         low_products acc ++
         [ {| low_id := id product;
              low_name := name product;
              low_category := category;
              low_stock := stock_count;
              low_price := price product |} ] |}
  else
    {| count_products := count_products acc;
       count_stock := total_stock;
       low_products := low_products acc |}.

(** One turn of its outer loop *)
Definition dashboard_category (acc : DashboardCounters)
  (item : string * list Product) : DashboardCounters :=
  let '(category, products) := item in
  fold_left (dashboard_product category) products
    {| count_products := count_products acc + length products;
       count_stock := count_stock acc;
       low_products := low_products acc |}.

Definition dashboard_counters (stock_data : Catalog) : DashboardCounters :=
  fold_left dashboard_category stock_data
    {| count_products := 0; count_stock := 0; low_products := [] |}.

(** ** The handlers *)

Section Handlers.
Context {json : JSON}.

(** [GET /api/health] *)
Definition health_check (now : datetime) : IO HealthResponse :=
  try_except
    (load_stock_data now ;; ret (healthy now))
    (fun e => ret (unhealthy e)).

(** [GET /api/products] *)
Definition get_all_products (now : datetime) : IO (list Product) :=
  except_Exception_500 (
    let! stock_data := load_stock_data now in
    ret (extend_all stock_data)).

(** [GET /api/products/{product_id}] *)
Definition get_product (product_id : Z) (now : datetime) : IO Product :=
  except_HTTPException_reraise (
    let! stock_data := load_stock_data now in
    match scan_catalog stock_data product_id with
    | Some (category, product) => ret product
    | None => raise (HTTPException 404)
    end).

(** [GET /api/categories] *)
Definition get_categories (now : datetime) : IO (list CategorySummary) :=
  except_Exception_500 (
    let! stock_data := load_stock_data now in
    ret (append_categories stock_data)).

(** [GET /api/categories/{category_name}] *)
Definition get_products_by_category (category_name : string) (now : datetime)
  : IO CategoryProducts :=
  except_HTTPException_reraise (
    let! stock_data := load_stock_data now in
    match dict_get stock_data category_name with
    | None => raise (HTTPException 404)
    | Some products =>
        ret {| listed_category := category_name; listed_products := products |}
    end).

(** [GET /api/stock/{product_id}] *)
Definition get_product_stock (product_id : Z) (now : datetime) : IO StockSummary :=
  except_HTTPException_reraise (
    let! stock_data := load_stock_data now in
    match scan_catalog stock_data product_id with
    | Some (category, product) =>
        ret {| summary_product_id := product_id;
               summary_product_name := name product;
               summary_category := category;
               stock_count := length (stock product);
               available := 0 <? length (stock product);
               summary_delivery_method := delivery_method product |}
    | None => raise (HTTPException 404)
    end).

(** [POST /api/stock/consume/{product_id}] *)
Definition consume_stock_item (product_id : Z) (now : datetime)
  : IO ConsumeResponse :=
  except_HTTPException_reraise (
    let! stock_data := load_stock_data now in
    match consume_catalog stock_data product_id with
    | Popped (stock_data', category) product consumed_license =>
        (* Save updated data *)
        save_stock_data stock_data' now ;;
        ret {| success := true;
               product_id := product_id;
               product_name := name product;
               category := category;
               consumed_license := consumed_license;
               remaining_stock := length (stock product);
               message := "Stock item consumed successfully" |}
    | OutOfStock product => raise (HTTPException 400)
    | NoMatch => raise (HTTPException 404)
    end).

(** [GET /api/dashboard] *)
Definition get_dashboard_stats (now : datetime) : IO DashboardStats :=
  except_Exception_500 (
    let! stock_data := load_stock_data now in
    let counters := dashboard_counters stock_data in
    ret {| total_categories := length stock_data;
           total_products := count_products counters;
           total_stock_items := count_stock counters;
           low_stock_products := low_products counters;
           low_stock_count := length (low_products counters);
           updated_at := now |}).

End Handlers.

(** ** What the proofs take from the JSON library *)

Fixpoint has_CR (s : string) : bool :=
  match s with
  | EmptyString => false
  | String c rest => Ascii.eqb c CR || has_CR rest
  end.

(** [json.load] gives back the dict that a [json.dump] that went through
    wrote; what a dump that raised has left is no JSON document (the closing
    brace of the dict is the last thing a dump writes); what [json.load]
    returns is a dict; and the text [json.dump] writes holds no carriage
    return (its line breaks are "\n", and control characters inside strings
    are escaped). *)
Class JSONLaws {json : JSON} : Prop := {
  json_load_dump :
    forall data,
      dict_keys_unique data -> encodable data = true ->
      json_load (json_dump data) = Some data;
  json_dump_raised :
    forall data, encodable data = false -> json_load (json_dump data) = None;
  json_load_dict :
    forall text data, json_load text = Some data -> dict_keys_unique data;
  json_dump_no_CR :
    forall data, has_CR (json_dump data) = false
}.

(** [STOCK_FILE] exists and parses to [stock_data]. *)
Definition stored {json : JSON} (fs : FileSystem) (stock_data : Catalog) : Prop :=
  exists content,
    STOCK_FILE fs = Some content /\ json_load (read_text content) = Some stock_data.

(** ** A codec that meets the laws

    Not the JSON syntax: the catalog's number under stdpp's [Countable],
    written in binary.  It shows that [JSONLaws] can be met, and the general
    theorems are run on it at concrete inputs. *)

#[local] Instance StockItem_eq_dec : EqDecision StockItem.
Proof. solve_decision. Defined.

#[local] Instance StockItem_countable : Countable StockItem :=
  inj_countable' license (fun s => {| license := s |})
                 (fun item => match item with {| license := _ |} => eq_refl end).

#[local] Instance spec_float_eq_dec : EqDecision spec_float.
Proof. solve_decision. Defined.

Definition spec_float_to_sum (x : spec_float)
  : (bool + bool) + (unit + bool * positive * Z) :=
  match x with
  | S754_zero s => inl (inl s)
  | S754_infinity s => inl (inr s)
  | S754_nan => inr (inl tt)
  | S754_finite s m e => inr (inr (s, m, e))
  end.

Definition spec_float_of_sum (x : (bool + bool) + (unit + bool * positive * Z))
  : spec_float :=
  match x with
  | inl (inl s) => S754_zero s
  | inl (inr s) => S754_infinity s
  | inr (inl _) => S754_nan
  | inr (inr (s, m, e)) => S754_finite s m e
  end.

#[local] Instance spec_float_countable : Countable spec_float :=
  inj_countable' spec_float_to_sum spec_float_of_sum
                 (fun x => match x with
                           | S754_zero _ | S754_infinity _ | S754_nan
                           | S754_finite _ _ _ => eq_refl
                           end).

#[local] Instance Product_eq_dec : EqDecision Product.
Proof. solve_decision. Defined.

Definition Product_to_tuple (p : Product) :=
  (id p, name p, image p, imagehover p, description p, price p,
   delivery_method p, stock p).

Definition Product_of_tuple
  (t : Z * string * string * option string * string * spec_float * string
       * list StockItem) : Product :=
  let '(i, n, im, ih, d, pr, dm, st) := t in
  {| id := i; name := n; image := im; imagehover := ih; description := d;
     price := pr; delivery_method := dm; stock := st |}.

#[local] Instance Product_countable : Countable Product :=
  inj_countable' Product_to_tuple Product_of_tuple
                 (fun p => match p with Build_Product _ _ _ _ _ _ _ _ => eq_refl end).

Fixpoint bits_of_positive (p : positive) : string :=
  match p with
  | xH => EmptyString
  | xO q => String "0" (bits_of_positive q)
  | xI q => String "1" (bits_of_positive q)
  end.

Fixpoint positive_of_bits (s : string) : option positive :=
  match s with
  | EmptyString => Some xH
  | String c rest =>
      if Ascii.eqb c "0" then xO <$> positive_of_bits rest
      else if Ascii.eqb c "1" then xI <$> positive_of_bits rest
      else None
  end.

(** A text that loads to [data] whatever its strings, as a JSON document
    with its surrogates written as escapes does. *)
Definition reference_escaped (data : Catalog) : string :=
  bits_of_positive (encode data).

(** The dump of a catalog that cannot be encoded leaves a text that does not
    load. *)
Definition reference_dump (data : Catalog) : string :=
  if encodable data then reference_escaped data else "?".

Definition reference_load (text : string) : option Catalog :=
  match positive_of_bits text with
  | Some p =>
      match decode p with
      | Some data => if decide (dict_keys_unique data) then Some data else None
      | None => None
      end
  | None => None
  end.

Definition binary_codec : JSON :=
  {| json_dump := reference_dump; json_load := reference_load |}.

(** The codec is sealed: the runs below use its laws, and never unfold it
    into bits. *)
Definition sealed_codec : { json : JSON | json = binary_codec }.
Proof. exists binary_codec. reflexivity. Qed.

Definition reference_json : JSON := proj1_sig sealed_codec.

Definition sealed_escaped : { text : Catalog -> string | text = reference_escaped }.
Proof. exists reference_escaped. reflexivity. Qed.

(** A store file that loads to [data] under the reference codec. *)
Definition escaped (data : Catalog) : string := proj1_sig sealed_escaped data.

(** ** Vocabulary of the statements *)

(** All products, category after category. *)
Definition all_products (stock_data : Catalog) : list Product :=
  concat (map snd stock_data).

Definition no_product_with (product_id : Z) (products : list Product) : Prop :=
  Forall (fun q => id q <> product_id) products.

(** [product], in category [category], is the first product with
    [product_id] in iteration order: no category before it holds the id, nor
    does any product before it in its own category.  [after] and [post] are
    free: they may hold further products with the same id. *)
Definition first_match (stock_data : Catalog) (product_id : Z)
  (pre : Catalog) (category : string) (before : list Product)
  (product : Product) (after : list Product) (post : Catalog) : Prop :=
  stock_data = pre ++ (category, before ++ product :: after) :: post
  /\ no_product_with product_id (all_products pre)
  /\ no_product_with product_id before
  /\ id product = product_id.

(** The catalog with the stock of that product replaced. *)
Definition replace_stock (pre : Catalog) (category : string)
  (before : list Product) (product : Product) (after : list Product)
  (post : Catalog) (new_stock : list StockItem) : Catalog :=
  pre ++ (category, before ++ with_stock product new_stock :: after) :: post.

(** How [save_stock_data] ends for [data]: with [True], or with the 500 it
    makes of the dump's exception. *)
Definition saved (data : Catalog) : outcome bool :=
  if encodable data then Return true else Raise (HTTPException 500).

(** The name [save_stock_data] gives the backup taken at [now]. *)
Definition backup_file_name (now : datetime) : string :=
  ("stock_backup_" ++ strftime now ++ ".json")%string.

(** Consume requests one after the other, one clock reading each. *)
Fixpoint consume_each {json : JSON} (product_id : Z) (clock : list datetime)
  (fs : FileSystem) : list (outcome ConsumeResponse) * FileSystem :=
  match clock with
  | [] => ([], fs)
  | now :: later =>
      let '(response, fs') := consume_stock_item product_id now fs in
      let '(responses, fs'') := consume_each product_id later fs' in
      (response :: responses, fs'')
  end.

(** The file system once [load_stock_data] has run on it: as it was when the
    store file exists, with the seed catalog written to the store file (and no
    backup) when it does not. *)
Definition after_load {json : JSON} (fs : FileSystem) : FileSystem :=
  match STOCK_FILE fs with
  | Some _ => fs
  | None =>
      {| STOCK_FILE := Some (json_dump default_data); BACKUP_DIR := BACKUP_DIR fs |}
  end.

(** A product is low on stock with 3 items or fewer. *)
Definition low_on_stock (product : Product) : Prop := length (stock product) <= 3.

#[local] Instance low_on_stock_dec product : Decision (low_on_stock product).
Proof. unfold low_on_stock. apply _. Defined.

(** The response to the consume number [i] (from 0) out of [total]. *)
Definition nth_consumed (product_id : Z) (category : string) (product : Product)
  (total i : nat) (consumed : StockItem) : outcome ConsumeResponse :=
  Return {| success := true;
            product_id := product_id;
            product_name := name product;
            category := category;
            consumed_license := consumed;
            remaining_stock := total - S i;
            message := "Stock item consumed successfully" |}.

(** Inputs on which the statements are run. *)

Definition noon : datetime :=
  {| year := 2025; month := 7; day := 15; hour := 12; minute := 0; second := 9 |}.

Definition no_files : FileSystem := {| STOCK_FILE := None; BACKUP_DIR := ∅ |}.

(** A file system whose store file holds what [json_dump] writes for [data]. *)
Definition holding {json : JSON} (data : Catalog) : FileSystem :=
  {| STOCK_FILE := Some (json_dump data); BACKUP_DIR := ∅ |}.

(** A store file with Windows line ends: an empty JSON object on two lines. *)
Definition crlf_text : string :=
  String "{" (String CR (String LF (String "}" EmptyString))).

(** What a text-mode read gives for [crlf_text]. *)
Definition lf_text : string := String "{" (String LF (String "}" EmptyString)).

Definition crlf_files : FileSystem :=
  {| STOCK_FILE := Some crlf_text; BACKUP_DIR := ∅ |}.

Definition key (n : string) : StockItem := {| license := n |}.

Definition item (i : Z) (n : string) (licenses : list string) : Product :=
  {| id := i; name := n; image := "img"; imagehover := None;
     description := "d"; price := float_10; delivery_method := "instant";
     stock := map key licenses |}.

(** Two categories; the id 7 is held twice, and the product 9 has no stock. *)
Definition twice_7 : Catalog :=
  [ ("A", [ item 5 "five" ["k1"; "k2"; "k3"];
            item 7 "seven" ["k0"];
            item 9 "nine" [] ]);
    ("B", [ item 7 "again" ["k4"] ]) ].

(** The same without the first holder of 7: every id once. *)
Definition shelf : Catalog :=
  [ ("A", [ item 5 "five" ["k1"; "k2"; "k3"]; item 9 "nine" [] ]);
    ("B", [ item 7 "again" ["k4"] ]) ].

Definition midnight : datetime :=
  {| year := 2026; month := 1; day := 1; hour := 0; minute := 0; second := 0 |}.

(** A store file without carriage return, and no backup yet. *)
Definition plain_files : FileSystem :=
  {| STOCK_FILE := Some "{}"; BACKUP_DIR := ∅ |}.

(** The store file of [holding data] next to an old backup. *)
Definition holding_with_backup {json : JSON} (data : Catalog) : FileSystem :=
  {| STOCK_FILE := Some (json_dump data);
     BACKUP_DIR := <["stock_backup_20240101_000000.json" := "{}"]> ∅ |}.

(** ** Vocabulary of the further properties *)

(** The entry [get_categories] appends for one item of the dict. *)
Definition category_entry (entry : string * list Product) : CategorySummary :=
  {| summary_name := entry.1; product_count := length entry.2 |}.

(** The entry [get_dashboard_stats] appends for a product low on stock. *)
Definition low_entry (category : string) (product : Product) : LowStockProduct :=
  {| low_id := id product;
     low_name := name product;
     low_category := category;
     low_stock := length (stock product);
     low_price := price product |}.

(** [product["id"] == product_id] *)
Definition has_id (product_id : Z) (product : Product) : bool :=
  (id product =? product_id)%Z.

(** The products listed under [category_name], none when it is no key. *)
Definition products_under (stock_data : Catalog) (category_name : string)
  : list Product :=
  match dict_get stock_data category_name with
  | Some products => products
  | None => []
  end.

(** What [get_products_by_category] lists for [category_name], nothing when
    it raises. *)
Definition listed_under {json : JSON} (fs : FileSystem) (now : datetime)
  (category_name : string) : list Product :=
  match (get_products_by_category category_name now fs).1 with
  | Return response => listed_products response
  | Raise _ => []
  end.

(** A scan without the list it updated: whom it hit and what it took. *)
Definition verdict {A : Type} (scan : consume_scan A) : consume_scan unit :=
  match scan with
  | Popped _ product consumed => Popped tt product consumed
  | OutOfStock product => OutOfStock product
  | NoMatch => NoMatch
  end.

(** The same for the outer loop, which also knows the category of the hit. *)
Definition held_in (scan : consume_scan (Catalog * string)) : consume_scan string :=
  match scan with
  | Popped (_, category) product consumed => Popped category product consumed
  | OutOfStock product => OutOfStock product
  | NoMatch => NoMatch
  end.

(** The product list as the inner loop of a consume leaves it. *)
Definition products_after (products : list Product) (product_id : Z)
  : list Product :=
  match consume_products products product_id with
  | Popped products' _ _ => products'
  | _ => products
  end.

(** The catalog as a consume request for [product_id] leaves it, whether it
    pops or raises. *)
Definition catalog_after (stock_data : Catalog) (product_id : Z) : Catalog :=
  match consume_catalog stock_data product_id with
  | Popped (stock_data', _) _ _ => stock_data'
  | _ => stock_data
  end.

(** What [consume_stock_item] answers after a scan that ended so. *)
Definition answer_of (product_id : Z) (scan : consume_scan string)
  : outcome ConsumeResponse :=
  match scan with
  | Popped category product consumed =>
      Return {| success := true;
                product_id := product_id;
                product_name := name product;
                category := category;
                consumed_license := consumed;
                remaining_stock := length (stock product);
                message := "Stock item consumed successfully" |}
  | OutOfStock _ => Raise (HTTPException 400)
  | NoMatch => Raise (HTTPException 404)
  end.

(** [STOCK_FILE] exists and [json.load] raises on it. *)
Definition unreadable {json : JSON} (fs : FileSystem) : Prop :=
  exists content,
    STOCK_FILE fs = Some content /\ json_load (read_text content) = None.

(** A reading of the clock whose year has four digits. *)
Definition clock_reading (t : datetime) : Prop :=
  1000 <= year t < 10 * 1000
  /\ 1 <= month t <= 12 /\ 1 <= day t <= 31
  /\ hour t < 24 /\ minute t < 60 /\ second t < 60.

(** What the consume of product 7 out of [holding twice_7] at [noon] answers
    and leaves. *)
Definition sold_7 : ConsumeResponse :=
  {| success := true; product_id := 7; product_name := "seven";
     category := "A"; consumed_license := key "k0"; remaining_stock := 0;
     message := "Stock item consumed successfully" |}.

Definition twice_7_sold : Catalog :=
  [ ("A", [ item 5 "five" ["k1"; "k2"; "k3"];
            item 7 "seven" [];
            item 9 "nine" [] ]);
    ("B", [ item 7 "again" ["k4"] ]) ].

Definition after_sale {json : JSON} : FileSystem :=
  {| STOCK_FILE := Some (json_dump twice_7_sold);
     BACKUP_DIR :=
       <[backup_file_name noon := read_text (json_dump twice_7)]> ∅ |}.

(** The code point U+D800 as Python holds it in a [str] that [json.load]
    made of the escape [\ud800]: bytes ED A0 80. *)
Definition lone_surrogate : string :=
  String (ascii_of_nat 237) (String (ascii_of_nat 160)
    (String (ascii_of_nat 128) EmptyString)).

(** The id 1 is held twice, and the second license of its first holder is a
    lone surrogate. *)
Definition cursed : Catalog :=
  [ ("A", [ item 1 "one" ["k1"; lone_surrogate] ]);
    ("B", [ item 1 "twin" ["k2"] ]) ].

(** A store file that loads to [cursed], and no backup yet. *)
Definition cursed_files : FileSystem :=
  {| STOCK_FILE := Some (escaped cursed); BACKUP_DIR := ∅ |}.

(** * Properties *)

(** ** The definitions at work *)

Example backup_file_name_noon :
  backup_file_name noon = "stock_backup_20250715_120009.json".
Proof. reflexivity. Qed.

Example read_text_crlf : read_text crlf_text = lf_text.
Proof. reflexivity. Qed.

Example scan_catalog_twice_7 :
  scan_catalog twice_7 7 = Some ("A", item 7 "seven" ["k0"]).
Proof. reflexivity. Qed.

Example consume_catalog_twice_7 :
  consume_catalog twice_7 7 =
    Popped ([ ("A", [ item 5 "five" ["k1"; "k2"; "k3"];
                      item 7 "seven" [];
                      item 9 "nine" [] ]);
              ("B", [ item 7 "again" ["k4"] ]) ], "A")
           (item 7 "seven" []) (key "k0").
Proof. reflexivity. Qed.

Example consume_catalog_out_of_stock :
  consume_catalog twice_7 9 = OutOfStock (item 9 "nine" []).
Proof. reflexivity. Qed.

Example consume_catalog_unknown : consume_catalog twice_7 99 = NoMatch.
Proof. reflexivity. Qed.

Example extend_all_twice_7 :
  extend_all twice_7 =
    [ item 5 "five" ["k1"; "k2"; "k3"]; item 7 "seven" ["k0"]; item 9 "nine" [];
      item 7 "again" ["k4"] ].
Proof. reflexivity. Qed.

Example append_categories_seed :
  append_categories default_data =
    [ {| summary_name := "BloodStrike"; product_count := 1 |};
      {| summary_name := "Window Protection 11"; product_count := 1 |} ].
Proof. reflexivity. Qed.

Example dashboard_counters_seed :
  let counters := dashboard_counters default_data in
  (count_products counters, count_stock counters,
   map low_id (low_products counters)) = (2, 6, [1%Z]).
Proof. reflexivity. Qed.

(** Runs the file primitives of a computation on a file system whose store
    file is known by [H]. *)
Ltac run_store H :=
  unfold except_HTTPException_reraise, except_Exception_500, try_except, bind,
    STOCK_FILE_exists, read_STOCK_FILE, write_backup, dump_to_STOCK_FILE,
    ret, raise;
  cbn; repeat (rewrite H; cbn).

Lemma default_data_encodable : encodable default_data = true.
Proof. vm_compute. reflexivity. Qed.

Section StoreFacts.
Context {json : JSON}.

Lemma load_existing fs now content :
  STOCK_FILE fs = Some content ->
  load_stock_data now fs =
    match json_load (read_text content) with
    | Some data => (Return data, fs)
    | None => (Raise (HTTPException 500), fs)
    end.
Proof.
  intros Hfile.
  unfold load_stock_data. run_store Hfile.
  destruct (json_load (read_text content)); reflexivity.
Qed.

Lemma load_stored fs now data :
  stored fs data -> load_stock_data now fs = (Return data, fs).
Proof.
  intros (content & Hfile & Hparse).
  rewrite (load_existing _ _ _ Hfile), Hparse. reflexivity.
Qed.

Lemma save_existing fs data now content :
  STOCK_FILE fs = Some content ->
  save_stock_data data now fs =
    (saved data,
     {| STOCK_FILE := Some (json_dump data);
        BACKUP_DIR := <[backup_file_name now := read_text content]> (BACKUP_DIR fs) |}).
Proof.
  intros Hfile.
  unfold save_stock_data, saved. run_store Hfile.
  destruct (encodable data); reflexivity.
Qed.

Lemma save_absent fs data now :
  STOCK_FILE fs = None ->
  save_stock_data data now fs =
    (saved data,
     {| STOCK_FILE := Some (json_dump data); BACKUP_DIR := BACKUP_DIR fs |}).
Proof.
  intros Hfile.
  unfold save_stock_data, saved. run_store Hfile.
  destruct (encodable data); reflexivity.
Qed.

(** A save ends as its dump does, whatever the file system. *)
Lemma save_ends data now fs :
  exists fs', save_stock_data data now fs = (saved data, fs').
Proof.
  destruct (STOCK_FILE fs) as [content|] eqn:Hfile.
  - rewrite (save_existing _ _ _ _ Hfile). eauto.
  - rewrite (save_absent _ _ _ Hfile). eauto.
Qed.

Lemma load_absent fs now :
  STOCK_FILE fs = None ->
  load_stock_data now fs =
    (Return default_data,
     {| STOCK_FILE := Some (json_dump default_data); BACKUP_DIR := BACKUP_DIR fs |}).
Proof.
  intros Hfile.
  unfold load_stock_data, except_Exception_500, try_except, bind,
    STOCK_FILE_exists.
  rewrite Hfile. cbn -[save_stock_data].
  rewrite (save_absent _ _ _ Hfile). unfold saved.
  rewrite default_data_encodable. reflexivity.
Qed.

End StoreFacts.

(** ** The scans *)

Lemma all_products_cons category products (rest : Catalog) :
  all_products ((category, products) :: rest) = products ++ all_products rest.
Proof. reflexivity. Qed.

Lemma all_products_app (pre post : Catalog) :
  all_products (pre ++ post) = all_products pre ++ all_products post.
Proof. unfold all_products. rewrite map_app. apply concat_app. Qed.

Lemma no_product_with_cons product_id product products :
  no_product_with product_id (product :: products) <->
  id product <> product_id /\ no_product_with product_id products.
Proof. exact (list.Forall_cons _ _ _). Qed.

Lemma no_product_with_app product_id l1 l2 :
  no_product_with product_id (l1 ++ l2) <->
  no_product_with product_id l1 /\ no_product_with product_id l2.
Proof. exact (list.Forall_app _ _ _). Qed.

Lemma scan_products_none products product_id :
  no_product_with product_id products -> scan_products products product_id = None.
Proof.
  induction products as [|q products IH]; intros Hno; [reflexivity|].
  apply no_product_with_cons in Hno as [Hq Hno]. simpl.
  apply Z.eqb_neq in Hq. rewrite Hq. auto.
Qed.

Lemma scan_products_first before product after :
  no_product_with (id product) before ->
  scan_products (before ++ product :: after) (id product) = Some product.
Proof.
  induction before as [|q before IH]; intros Hno; simpl.
  - rewrite Z.eqb_refl. reflexivity.
  - apply no_product_with_cons in Hno as [Hq Hno].
    apply Z.eqb_neq in Hq. rewrite Hq. auto.
Qed.

Lemma scan_catalog_none stock_data product_id :
  no_product_with product_id (all_products stock_data) ->
  scan_catalog stock_data product_id = None.
Proof.
  induction stock_data as [|[category products] rest IH]; intros Hno;
    [reflexivity|].
  rewrite all_products_cons in Hno.
  apply no_product_with_app in Hno as [Hhere Hrest]. simpl.
  rewrite (scan_products_none _ _ Hhere). auto.
Qed.

Lemma scan_catalog_first stock_data product_id pre category before product after post :
  first_match stock_data product_id pre category before product after post ->
  scan_catalog stock_data product_id = Some (category, product).
Proof.
  intros (-> & Hpre & Hbefore & <-).
  induction pre as [|[c ps] pre IH]; simpl.
  - rewrite (scan_products_first _ _ _ Hbefore). reflexivity.
  - rewrite all_products_cons in Hpre.
    apply no_product_with_app in Hpre as [Hhere Hpre].
    rewrite (scan_products_none _ _ Hhere). auto.
Qed.

Lemma consume_products_none products product_id :
  no_product_with product_id products ->
  consume_products products product_id = NoMatch.
Proof.
  induction products as [|q products IH]; intros Hno; [reflexivity|].
  apply no_product_with_cons in Hno as [Hq Hno]. simpl.
  apply Z.eqb_neq in Hq. rewrite Hq, (IH Hno). reflexivity.
Qed.

Lemma consume_products_first before product after :
  no_product_with (id product) before ->
  consume_products (before ++ product :: after) (id product) =
    match stock product with
    | consumed_license :: remaining =>
        Popped (before ++ with_stock product remaining :: after)
               (with_stock product remaining) consumed_license
    | [] => OutOfStock product
    end.
Proof.
  induction before as [|q before IH]; intros Hno; simpl.
  - rewrite Z.eqb_refl. destruct (stock product); reflexivity.
  - apply no_product_with_cons in Hno as [Hq Hno].
    apply Z.eqb_neq in Hq. rewrite Hq, (IH Hno).
    destruct (stock product); reflexivity.
Qed.

Lemma consume_catalog_none stock_data product_id :
  no_product_with product_id (all_products stock_data) ->
  consume_catalog stock_data product_id = NoMatch.
Proof.
  induction stock_data as [|[category products] rest IH]; intros Hno;
    [reflexivity|].
  rewrite all_products_cons in Hno.
  apply no_product_with_app in Hno as [Hhere Hrest]. simpl.
  rewrite (consume_products_none _ _ Hhere), (IH Hrest). reflexivity.
Qed.

Lemma consume_catalog_first stock_data product_id pre category before product after post :
  first_match stock_data product_id pre category before product after post ->
  consume_catalog stock_data product_id =
    match stock product with
    | consumed_license :: remaining =>
        Popped (replace_stock pre category before product after post remaining,
                category)
               (with_stock product remaining) consumed_license
    | [] => OutOfStock product
    end.
Proof.
  intros (-> & Hpre & Hbefore & <-). unfold replace_stock.
  induction pre as [|[c ps] pre IH]; simpl.
  - rewrite (consume_products_first _ _ _ Hbefore).
    destruct (stock product); reflexivity.
  - rewrite all_products_cons in Hpre.
    apply no_product_with_app in Hpre as [Hhere Hpre].
    rewrite (consume_products_none _ _ Hhere), (IH Hpre).
    destruct (stock product); reflexivity.
Qed.

(** A list that holds the id has a first product with it. *)
Lemma first_in_products products product_id :
  ~ no_product_with product_id products ->
  exists before product after,
    products = before ++ product :: after
    /\ no_product_with product_id before /\ id product = product_id.
Proof.
  induction products as [|q products IH]; intros Hsome.
  - destruct Hsome. constructor.
  - destruct (Z.eq_dec (id q) product_id) as [Heq|Hne].
    + exists [], q, products. repeat split; [constructor | exact Heq].
    + destruct IH as (before & product & after & -> & Hno & Hid).
      { intros Hno. apply Hsome. apply no_product_with_cons. auto. }
      exists (q :: before), product, after.
      repeat split; [apply no_product_with_cons; auto | exact Hid].
Qed.

Lemma no_product_with_dec product_id products :
  {no_product_with product_id products} + {~ no_product_with product_id products}.
Proof.
  unfold no_product_with. apply Forall_dec. intros q.
  destruct (Z.eq_dec (id q) product_id); [right | left]; auto.
Defined.

(** A catalog that holds the id has a first match. *)
Lemma first_match_exists stock_data product_id :
  ~ no_product_with product_id (all_products stock_data) ->
  exists pre category before product after post,
    first_match stock_data product_id pre category before product after post.
Proof.
  induction stock_data as [|[c ps] rest IH]; intros Hsome.
  - destruct Hsome. constructor.
  - destruct (no_product_with_dec product_id ps) as [Hno|Hhere].
    + destruct IH as (pre & category & before & product & after & post & Hfirst).
      { intros Hrest. apply Hsome. rewrite all_products_cons.
        apply no_product_with_app. auto. }
      destruct Hfirst as (-> & Hpre & Hbefore & Hid).
      exists ((c, ps) :: pre), category, before, product, after, post.
      repeat split; auto.
      rewrite all_products_cons. apply no_product_with_app. auto.
    + destruct (first_in_products _ _ Hhere) as (before & product & after & -> & Hno & Hid).
      exists [], c, before, product, after, rest.
      repeat split; auto. constructor.
Qed.

Lemma with_stock_with_stock product stock1 stock2 :
  with_stock (with_stock product stock1) stock2 = with_stock product stock2.
Proof. reflexivity. Qed.

Lemma with_stock_same product : with_stock product (stock product) = product.
Proof. destruct product; reflexivity. Qed.

Lemma replace_stock_first stock_data product_id pre category before product after post new_stock :
  first_match stock_data product_id pre category before product after post ->
  first_match (replace_stock pre category before product after post new_stock)
              product_id pre category before (with_stock product new_stock) after post.
Proof.
  intros (-> & Hpre & Hbefore & Hid). repeat split; auto.
Qed.

Lemma replace_stock_keys stock_data product_id pre category before product after post new_stock :
  first_match stock_data product_id pre category before product after post ->
  map fst (replace_stock pre category before product after post new_stock)
  = map fst stock_data.
Proof.
  intros (-> & _). unfold replace_stock. rewrite !map_app. reflexivity.
Qed.

Lemma holds_id_not_none product_id products q :
  In q products -> id q = product_id -> ~ no_product_with product_id products.
Proof.
  intros Hin Hid Hno. unfold no_product_with in Hno.
  rewrite List.Forall_forall in Hno. exact (Hno q Hin Hid).
Qed.

Lemma read_text_no_CR s : has_CR s = false -> read_text s = s.
Proof.
  induction s as [|c s IH]; intros Hno; [reflexivity|].
  simpl in Hno. apply orb_false_iff in Hno as [Hc Hs].
  simpl. rewrite Hc, (IH Hs). reflexivity.
Qed.

Lemma id_elem_of (p : Product) (l : list Product) : p ∈ l -> id p ∈ map id l.
Proof.
  intros Hin. apply list_elem_of_In, in_map, list_elem_of_In, Hin.
Qed.

Lemma not_held_no_product product_id (products : list Product) :
  (forall q, q ∈ products -> id q <> product_id) ->
  no_product_with product_id products.
Proof.
  intros Hnone. unfold no_product_with. apply List.Forall_forall.
  intros q Hin. apply Hnone, list_elem_of_In, Hin.
Qed.

Lemma scan_products_unique (products : list Product) (p : Product) :
  NoDup (map id products) -> p ∈ products ->
  scan_products products (id p) = Some p.
Proof.
  induction products as [|q rest IH]; intros Hnodup Hin.
  - inversion Hin.
  - cbn [map] in Hnodup. apply list.NoDup_cons in Hnodup as [Hfresh Hnodup].
    cbn [scan_products].
    destruct (Z.eqb_spec (id q) (id p)) as [Heq|Hne].
    + apply elem_of_cons in Hin as [->|Hin]; [reflexivity|].
      exfalso. apply Hfresh. rewrite Heq. apply id_elem_of, Hin.
    + apply elem_of_cons in Hin as [->|Hin]; [congruence|].
      exact (IH Hnodup Hin).
Qed.

Lemma scan_catalog_unique (stock_data : Catalog) (p : Product) :
  NoDup (map id (all_products stock_data)) -> p ∈ all_products stock_data ->
  exists category, scan_catalog stock_data (id p) = Some (category, p).
Proof.
  induction stock_data as [|[c products] rest IH]; intros Hnodup Hin.
  - inversion Hin.
  - rewrite all_products_cons in *. rewrite map_app in Hnodup.
    apply list.NoDup_app in Hnodup as (Hhere & Hdisjoint & Hrest).
    cbn [scan_catalog].
    apply elem_of_app in Hin as [Hin|Hin].
    + rewrite (scan_products_unique _ _ Hhere Hin). eauto.
    + rewrite scan_products_none; [exact (IH Hrest Hin)|].
      apply not_held_no_product. intros q Hq Heq.
      apply (Hdisjoint (id q)); [apply id_elem_of, Hq|].
      rewrite Heq. apply id_elem_of, Hin.
Qed.

(** With every id held once, the first match for the id of a product is
    that product. *)
Lemma first_match_unique stock_data pre category before product after post (q : Product) :
  NoDup (map id (all_products stock_data)) ->
  q ∈ all_products stock_data ->
  first_match stock_data (id q) pre category before product after post ->
  product = q.
Proof.
  intros Hnodup Hin Hfirst.
  destruct (scan_catalog_unique _ _ Hnodup Hin) as (category' & Hscan).
  rewrite (scan_catalog_first _ _ _ _ _ _ _ _ Hfirst) in Hscan.
  congruence.
Qed.

(** ** Catalogs that can be dumped *)

(** Splits the conjunctions of booleans in the hypotheses and in the goal. *)
Ltac split_andb :=
  repeat match goal with
         | H : _ && _ = true |- _ => apply andb_prop in H; destruct H
         end;
  repeat (apply andb_true_intro; split); try assumption.

(** Taking a stock item away never makes a catalog harder to dump. *)
Lemma encodable_shrinks pre category before product after post consumed remaining :
  encodable (replace_stock pre category before product after post
                           (consumed :: remaining)) = true ->
  encodable (replace_stock pre category before product after post remaining) = true.
Proof.
  unfold replace_stock, encodable. rewrite !forallb_app. cbn [forallb fst snd].
  rewrite !forallb_app. cbn [forallb]. unfold encodable_product.
  cbn [with_stock name image imagehover description delivery_method stock forallb].
  intros H. split_andb.
Qed.

Lemma encodable_tail pre category before product after post items :
  encodable (replace_stock pre category before product after post items) = true ->
  encodable (replace_stock pre category before product after post (tail items))
  = true.
Proof.
  destruct items as [|consumed remaining]; [trivial | apply encodable_shrinks].
Qed.

Lemma encodable_popped stock_data product_id pre category before product after post
      consumed remaining :
  first_match stock_data product_id pre category before product after post ->
  stock product = consumed :: remaining ->
  encodable stock_data = true ->
  encodable (replace_stock pre category before product after post remaining) = true.
Proof.
  intros (-> & _) Hstock Hdata. apply (encodable_shrinks _ _ _ _ _ _ consumed).
  unfold replace_stock. rewrite <- Hstock, with_stock_same. exact Hdata.
Qed.

(** Whatever a consume request does to a catalog that can be dumped, the
    result can be dumped. *)
Lemma encodable_catalog_after stock_data product_id :
  encodable stock_data = true ->
  encodable (catalog_after stock_data product_id) = true.
Proof.
  intros Hdata. unfold catalog_after.
  destruct (no_product_with_dec product_id (all_products stock_data))
    as [Hnone|Hsome].
  - rewrite (consume_catalog_none _ _ Hnone). exact Hdata.
  - destruct (first_match_exists _ _ Hsome)
      as (pre & category & before & product & after & post & Hfirst).
    rewrite (consume_catalog_first _ _ _ _ _ _ _ _ Hfirst).
    destruct (stock product) as [|consumed remaining] eqn:Hstock;
      [exact Hdata|].
    exact (encodable_popped _ _ _ _ _ _ _ _ _ _ Hfirst Hstock Hdata).
Qed.

(** ** The handlers on a store file that parses *)

Section HandlerFacts.
Context {json : JSON}.

Lemma consume_on_stored fs content data product_id now :
  STOCK_FILE fs = Some content ->
  json_load (read_text content) = Some data ->
  consume_stock_item product_id now fs =
    match consume_catalog data product_id with
    | Popped (data', category) product consumed_license =>
        (if encodable data' then
           Return {| success := true;
                     product_id := product_id;
                     product_name := name product;
                     category := category;
                     consumed_license := consumed_license;
                     remaining_stock := length (stock product);
                     message := "Stock item consumed successfully" |}
         else Raise (HTTPException 500),
         {| STOCK_FILE := Some (json_dump data');
            BACKUP_DIR :=
              <[backup_file_name now := read_text content]> (BACKUP_DIR fs) |})
    | OutOfStock _ => (Raise (HTTPException 400), fs)
    | NoMatch => (Raise (HTTPException 404), fs)
    end.
Proof.
  intros Hfile Hparse.
  unfold consume_stock_item, except_HTTPException_reraise, try_except.
  unfold bind at 1.
  rewrite (load_existing _ _ _ Hfile), Hparse.
  destruct (consume_catalog data product_id) as [[data' category] product lic| |];
    try reflexivity.
  unfold bind. rewrite (save_existing _ _ _ _ Hfile). unfold saved.
  destruct (encodable data'); reflexivity.
Qed.

Lemma get_product_on_stored fs data product_id now :
  stored fs data ->
  get_product product_id now fs =
    match scan_catalog data product_id with
    | Some (_, product) => (Return product, fs)
    | None => (Raise (HTTPException 404), fs)
    end.
Proof.
  intros Hstored.
  unfold get_product, except_HTTPException_reraise, try_except, bind.
  rewrite (load_stored _ _ _ Hstored).
  destruct (scan_catalog data product_id) as [[category product]|]; reflexivity.
Qed.

Lemma get_product_stock_on_stored fs data product_id now :
  stored fs data ->
  get_product_stock product_id now fs =
    match scan_catalog data product_id with
    | Some (category, product) =>
        (Return {| summary_product_id := product_id;
                   summary_product_name := name product;
                   summary_category := category;
                   stock_count := length (stock product);
                   available := 0 <? length (stock product);
                   summary_delivery_method := delivery_method product |}, fs)
    | None => (Raise (HTTPException 404), fs)
    end.
Proof.
  intros Hstored.
  unfold get_product_stock, except_HTTPException_reraise, try_except, bind.
  rewrite (load_stored _ _ _ Hstored).
  destruct (scan_catalog data product_id) as [[category product]|]; reflexivity.
Qed.

Context {laws : JSONLaws}.

Lemma stored_dict fs data : stored fs data -> dict_keys_unique data.
Proof. intros (content & _ & Hparse). exact (json_load_dict _ _ Hparse). Qed.

(** What a dump that went through wrote is what the next load reads. *)
Lemma stored_written data backups :
  dict_keys_unique data ->
  encodable data = true ->
  stored {| STOCK_FILE := Some (json_dump data); BACKUP_DIR := backups |} data.
Proof.
  intros Hdict Hdump. exists (json_dump data). split; [reflexivity|].
  rewrite (read_text_no_CR _ (json_dump_no_CR data)).
  exact (json_load_dump _ Hdict Hdump).
Qed.

(** What a dump that raised has left does not load. *)
Lemma unreadable_written data backups :
  encodable data = false ->
  unreadable {| STOCK_FILE := Some (json_dump data); BACKUP_DIR := backups |}.
Proof.
  intros Hdump. exists (json_dump data). split; [reflexivity|].
  rewrite (read_text_no_CR _ (json_dump_no_CR data)).
  exact (json_dump_raised _ Hdump).
Qed.

Lemma replace_stock_dict stock_data product_id pre category before product after post new_stock :
  first_match stock_data product_id pre category before product after post ->
  dict_keys_unique stock_data ->
  dict_keys_unique (replace_stock pre category before product after post new_stock).
Proof.
  intros Hfirst Hdict. unfold dict_keys_unique.
  rewrite (replace_stock_keys _ _ _ _ _ _ _ _ new_stock Hfirst). exact Hdict.
Qed.

(** A consume that pops: the response, and the file system it leaves. *)
Lemma consume_pops fs data product_id now pre category before product after post
      consumed remaining :
  stored fs data ->
  first_match data product_id pre category before product after post ->
  stock product = consumed :: remaining ->
  encodable (replace_stock pre category before product after post remaining)
  = true ->
  exists fs',
    consume_stock_item product_id now fs =
      (Return {| success := true;
                 product_id := product_id;
                 product_name := name product;
                 category := category;
                 consumed_license := consumed;
                 remaining_stock := length remaining;
                 message := "Stock item consumed successfully" |}, fs')
    /\ STOCK_FILE fs' =
         Some (json_dump (replace_stock pre category before product after post remaining))
    /\ stored fs' (replace_stock pre category before product after post remaining).
Proof.
  intros Hstored Hfirst Hstock Hdump.
  pose proof (stored_dict _ _ Hstored) as Hdict.
  destruct Hstored as (content & Hfile & Hparse).
  rewrite (consume_on_stored _ _ _ _ _ Hfile Hparse).
  rewrite (consume_catalog_first _ _ _ _ _ _ _ _ Hfirst), Hstock, Hdump.
  eexists. split; [reflexivity|]. split; [reflexivity|].
  apply stored_written; [|exact Hdump].
  exact (replace_stock_dict _ _ _ _ _ _ _ _ _ Hfirst Hdict).
Qed.

(** A consume whose save raises: the backup is taken, the store file holds
    what the dump wrote before it raised, and that does not load. *)
Lemma consume_dump_raises fs data product_id now pre category before product after post
      consumed remaining :
  stored fs data ->
  first_match data product_id pre category before product after post ->
  stock product = consumed :: remaining ->
  encodable (replace_stock pre category before product after post remaining)
  = false ->
  exists fs',
    consume_stock_item product_id now fs = (Raise (HTTPException 500), fs')
    /\ STOCK_FILE fs' =
         Some (json_dump (replace_stock pre category before product after post remaining))
    /\ unreadable fs'.
Proof.
  intros (content & Hfile & Hparse) Hfirst Hstock Hdump.
  rewrite (consume_on_stored _ _ _ _ _ Hfile Hparse).
  rewrite (consume_catalog_first _ _ _ _ _ _ _ _ Hfirst), Hstock, Hdump.
  eexists. split; [reflexivity|]. split; [reflexivity|].
  apply unreadable_written. exact Hdump.
Qed.

Lemma consume_out_of_stock fs data product_id now pre category before product after post :
  stored fs data ->
  first_match data product_id pre category before product after post ->
  stock product = [] ->
  consume_stock_item product_id now fs = (Raise (HTTPException 400), fs).
Proof.
  intros (content & Hfile & Hparse) Hfirst Hstock.
  rewrite (consume_on_stored _ _ _ _ _ Hfile Hparse).
  rewrite (consume_catalog_first _ _ _ _ _ _ _ _ Hfirst), Hstock. reflexivity.
Qed.

Lemma consume_unknown fs data product_id now :
  stored fs data ->
  no_product_with product_id (all_products data) ->
  consume_stock_item product_id now fs = (Raise (HTTPException 404), fs).
Proof.
  intros (content & Hfile & Hparse) Hno.
  rewrite (consume_on_stored _ _ _ _ _ Hfile Hparse).
  rewrite (consume_catalog_none _ _ Hno). reflexivity.
Qed.

(** C1 as the code has it: on every catalog and for every product id,
    [consume_stock_item] takes the stock item at index 0 off the (first)
    product with that id when its stock is not empty and, when the catalog so
    changed can be dumped, writes it to the store file, from which the next
    load reads it, and returns success with the consumed license, the number
    of items left, the category and the product name.  When the catalog so
    changed holds a string that cannot be encoded, the request raises 500
    and leaves in the store file what the dump wrote before it raised, which
    does not load.  It raises 400 when that product has no stock and 404 when
    no product has the id.  Whenever some product of the catalog has the id
    there is a first one, and it is that very product when every id is held
    once. *)
Theorem consume_stock_item_outcomes fs data product_id now :
  stored fs data ->
  (forall pre category before product after post consumed remaining,
      first_match data product_id pre category before product after post ->
      stock product = consumed :: remaining ->
      encodable (replace_stock pre category before product after post remaining)
      = true ->
      exists fs',
        consume_stock_item product_id now fs =
          (Return {| success := true;
                     product_id := product_id;
                     product_name := name product;
                     category := category;
                     consumed_license := consumed;
                     remaining_stock := length remaining;
                     message := "Stock item consumed successfully" |}, fs')
        /\ STOCK_FILE fs' =
             Some (json_dump
                     (replace_stock pre category before product after post remaining))
        /\ stored fs' (replace_stock pre category before product after post remaining))
  /\ (forall pre category before product after post consumed remaining,
         first_match data product_id pre category before product after post ->
         stock product = consumed :: remaining ->
         encodable (replace_stock pre category before product after post remaining)
         = false ->
         exists fs',
           consume_stock_item product_id now fs = (Raise (HTTPException 500), fs')
           /\ STOCK_FILE fs' =
                Some (json_dump
                        (replace_stock pre category before product after post
                                       remaining))
           /\ unreadable fs')
  /\ (forall pre category before product after post,
         first_match data product_id pre category before product after post ->
         stock product = [] ->
         consume_stock_item product_id now fs = (Raise (HTTPException 400), fs))
  /\ (no_product_with product_id (all_products data) ->
      consume_stock_item product_id now fs = (Raise (HTTPException 404), fs))
  /\ (forall q, q ∈ all_products data -> id q = product_id ->
      exists pre category before product after post,
        first_match data product_id pre category before product after post
        /\ (NoDup (map id (all_products data)) -> product = q)).
Proof.
  intros Hstored. split; [|split; [|split; [|split]]].
  - intros. eapply consume_pops; eauto.
  - intros. eapply consume_dump_raises; eauto.
  - intros. eapply consume_out_of_stock; eauto.
  - intros. eapply consume_unknown; eauto.
  - intros q Hin Hid.
    destruct (first_match_exists data product_id)
      as (pre & category & before & product & after & post & Hfirst).
    { apply list_elem_of_In in Hin. exact (holds_id_not_none _ _ _ Hin Hid). }
    exists pre, category, before, product, after, post.
    split; [exact Hfirst|].
    intros Hnodup. subst product_id.
    exact (first_match_unique _ _ _ _ _ _ _ _ Hnodup Hin Hfirst).
Qed.

End HandlerFacts.

Section Fifo.
Context {json : JSON} {laws : JSONLaws}.

Lemma consume_each_drains pre category before product after post :
  no_product_with (id product) (all_products pre) ->
  no_product_with (id product) before ->
  forall items clock fs,
    stored fs (replace_stock pre category before product after post items) ->
    (forall consumed remaining,
        items = consumed :: remaining ->
        encodable (replace_stock pre category before product after post remaining)
        = true) ->
    length clock = length items ->
    exists fs',
      consume_each (id product) clock fs =
        (imap (nth_consumed (id product) category product (length items)) items, fs')
      /\ stored fs' (replace_stock pre category before product after post []).
Proof.
  intros Hpre Hbefore.
  induction items as [|consumed remaining IH]; intros clock fs Hstored Hdump Hlen.
  - destruct clock; [|discriminate]. exists fs. split; [reflexivity | exact Hstored].
  - destruct clock as [|now later]; [discriminate|].
    injection Hlen as Hlen.
    assert (Hfirst : first_match
              (replace_stock pre category before product after post (consumed :: remaining))
              (id product) pre category before
              (with_stock product (consumed :: remaining)) after post)
      by (repeat split; assumption).
    pose proof (Hdump consumed remaining eq_refl) as Hnext.
    destruct (consume_pops fs _ _ now _ _ _ _ _ _ consumed remaining
                Hstored Hfirst eq_refl Hnext) as (fs1 & Hrun & _ & Hstored1).
    destruct (IH later fs1 Hstored1) as (fs' & Hrest & Hdone).
    { intros c r ->. exact (encodable_shrinks _ _ _ _ _ _ _ _ Hnext). }
    { exact Hlen. }
    exists fs'. split; [|exact Hdone].
    cbn [consume_each]. rewrite Hrun, Hrest. f_equal.
    cbn [imap length]. f_equal.
    unfold nth_consumed. cbn. rewrite Nat.sub_0_r. reflexivity.
Qed.

(** C2 as the code has it: a product with exactly N stock items answers N
    consume requests in a row with its N licenses in their stored order, head
    first, each reporting as [remaining_stock] one less than the stock count
    it found, provided the catalog that the first of them saves can be dumped
    (the later ones save less); the stock is then empty, and one more consume
    request raises 400. *)
Theorem consume_each_fifo fs data product_id clock pre category before product after post :
  stored fs data ->
  first_match data product_id pre category before product after post ->
  (forall consumed remaining,
      stock product = consumed :: remaining ->
      encodable (replace_stock pre category before product after post remaining)
      = true) ->
  length clock = length (stock product) ->
  exists fs',
    consume_each product_id clock fs =
      (imap (nth_consumed product_id category product (length (stock product)))
            (stock product), fs')
    /\ stored fs' (replace_stock pre category before product after post [])
    /\ forall now,
         consume_stock_item product_id now fs' = (Raise (HTTPException 400), fs').
Proof.
  intros Hstored Hfirst Hdump Hlen.
  pose proof Hfirst as (Hdata & Hpre & Hbefore & Hid). subst product_id.
  assert (Hsame : data =
            replace_stock pre category before product after post (stock product)).
  { unfold replace_stock. rewrite with_stock_same. exact Hdata. }
  rewrite Hsame in Hstored.
  destruct (consume_each_drains pre category before product after post
              Hpre Hbefore (stock product) clock fs Hstored Hdump Hlen)
    as (fs' & Hrun & Hdone).
  exists fs'. split; [exact Hrun|]. split; [exact Hdone|].
  intros now.
  apply (consume_out_of_stock fs' _ (id product) now pre category before
           (with_stock product []) after post Hdone).
  - exact (replace_stock_first _ _ _ _ _ _ _ _ [] Hfirst).
  - reflexivity.
Qed.

End Fifo.

(** ** First load and round trip *)

Lemma default_data_dict : dict_keys_unique default_data.
Proof. apply (bool_decide_unpack _). vm_compute. exact I. Qed.

Section Seed.
Context {json : JSON} {laws : JSONLaws}.

Lemma load_after_save data fs now later :
  dict_keys_unique data ->
  encodable data = true ->
  load_stock_data later (save_stock_data data now fs).2
  = (Return data, (save_stock_data data now fs).2).
Proof.
  intros Hdict Hdump. apply load_stored.
  destruct (STOCK_FILE fs) as [content|] eqn:Hfile.
  - rewrite (save_existing _ _ _ _ Hfile). apply stored_written; assumption.
  - rewrite (save_absent _ _ _ Hfile). apply stored_written; assumption.
Qed.

(** C3: without a store file, [load_stock_data] makes up the seed catalog of
    two categories (BloodStrike, one product with 2 stock items; Window
    Protection 11, one product with 4), writes it to the store file, taking
    no backup, and returns it; the next load returns the same catalog and
    writes nothing; and the load after the save of any catalog that can be
    dumped returns that catalog. *)
Theorem load_without_file_seeds fs now later :
  STOCK_FILE fs = None ->
  (exists fs1,
      load_stock_data now fs = (Return default_data, fs1)
      /\ STOCK_FILE fs1 = Some (json_dump default_data)
      /\ BACKUP_DIR fs1 = BACKUP_DIR fs
      /\ load_stock_data later fs1 = (Return default_data, fs1))
  /\ map (fun entry => (entry.1, map (fun p => length (stock p)) entry.2))
         default_data
     = [ ("BloodStrike", [2]); ("Window Protection 11", [4]) ]
  /\ (forall data fs0 t0 t1,
         dict_keys_unique data ->
         encodable data = true ->
         (save_stock_data data t0 fs0).1 = Return true
         /\ load_stock_data t1 (save_stock_data data t0 fs0).2
            = (Return data, (save_stock_data data t0 fs0).2)).
Proof.
  intros Hfile. split; [|split].
  - eexists. split; [exact (load_absent _ _ Hfile)|].
    split; [reflexivity|]. split; [reflexivity|].
    apply load_stored, stored_written;
      [exact default_data_dict | exact default_data_encodable].
  - reflexivity.
  - intros data fs0 t0 t1 Hdict Hdump.
    split; [|apply load_after_save; assumption].
    destruct (save_ends data t0 fs0) as (fs' & ->). unfold saved.
    rewrite Hdump. reflexivity.
Qed.

End Seed.

(** ** What a request writes *)

Section Writes.
Context {json : JSON}.

Lemma load_cases fs now :
  (exists data, load_stock_data now fs = (Return data, after_load fs))
  \/ load_stock_data now fs = (Raise (HTTPException 500), after_load fs).
Proof.
  unfold after_load. destruct (STOCK_FILE fs) as [content|] eqn:Hfile.
  - rewrite (load_existing _ _ _ Hfile).
    destruct (json_load (read_text content)) as [data|]; eauto.
  - rewrite (load_absent _ _ Hfile). eauto.
Qed.

(** Unfolds a handler down to its load and takes the two ways the load ends. *)
Ltac after_the_load fs now :=
  unfold health_check, get_all_products, get_product, get_categories,
    get_products_by_category, get_product_stock, consume_stock_item,
    get_dashboard_stats,
    except_HTTPException_reraise, except_Exception_500, try_except, bind;
  destruct (load_cases fs now) as [[?data ->] | ->].

(** C4 as the code has it: the seven reading handlers and every consume
    that raises 404 or 400 write nothing but what their load writes.  They
    leave the file system as [load_stock_data] leaves it: unchanged when the
    store file exists; with the seed catalog written to the store file when
    it does not. *)
Theorem only_load_and_consume_write fs now product_id category_name :
  (health_check now fs).2 = after_load fs
  /\ (get_all_products now fs).2 = after_load fs
  /\ (get_product product_id now fs).2 = after_load fs
  /\ (get_categories now fs).2 = after_load fs
  /\ (get_products_by_category category_name now fs).2 = after_load fs
  /\ (get_product_stock product_id now fs).2 = after_load fs
  /\ (get_dashboard_stats now fs).2 = after_load fs
  /\ (forall status_code,
         status_code = 404%Z \/ status_code = 400%Z ->
         (consume_stock_item product_id now fs).1
         = Raise (HTTPException status_code) ->
         (consume_stock_item product_id now fs).2 = after_load fs)
  /\ (is_Some (STOCK_FILE fs) -> after_load fs = fs)
  /\ (STOCK_FILE fs = None ->
      after_load fs =
        {| STOCK_FILE := Some (json_dump default_data);
           BACKUP_DIR := BACKUP_DIR fs |}).
Proof.
  repeat split.
  - after_the_load fs now; reflexivity.
  - after_the_load fs now; reflexivity.
  - after_the_load fs now; [|reflexivity].
    destruct (scan_catalog data product_id) as [[c p]|]; reflexivity.
  - after_the_load fs now; reflexivity.
  - after_the_load fs now; [|reflexivity].
    destruct (dict_get data category_name); reflexivity.
  - after_the_load fs now; [|reflexivity].
    destruct (scan_catalog data product_id) as [[c p]|]; reflexivity.
  - after_the_load fs now; reflexivity.
  - intros status_code Hstatus. after_the_load fs now; [|reflexivity].
    destruct (consume_catalog data product_id) as [[data' c] p lic| |];
      try reflexivity.
    destruct (save_ends data' now (after_load fs)) as (fs' & ->).
    unfold saved. destruct (encodable data'); cbn; [discriminate|].
    intros [= <-]. destruct Hstatus; discriminate.
  - intros [content Hfile]. unfold after_load. rewrite Hfile. reflexivity.
  - intros Hfile. unfold after_load. rewrite Hfile. reflexivity.
Qed.

End Writes.

(** ** The dashboard *)

Lemma dashboard_products_counts category products acc :
  let acc' := fold_left (dashboard_product category) products acc in
  count_products acc' = count_products acc
  /\ count_stock acc' =
       count_stock acc + sum_list_with (fun p => length (stock p)) products
  /\ length (low_products acc') =
       length (low_products acc) + length (filter low_on_stock products).
Proof.
  revert acc. induction products as [|p products IH]; intros acc; cbn zeta.
  - cbn. repeat split; lia.
  - cbn [fold_left sum_list_with].
    destruct (IH (dashboard_product category acc p)) as (Hproducts & Hstock & Hlow).
    rewrite Hproducts, Hstock, Hlow. rewrite filter_cons.
    unfold dashboard_product, low_on_stock.
    destruct (Nat.leb_spec (length (stock p)) 3) as [Hle|Hgt]; cbn.
    + rewrite decide_True by exact Hle. rewrite length_app. cbn.
      repeat split; lia.
    + rewrite decide_False by lia. repeat split; lia.
Qed.

Lemma dashboard_counters_counts stock_data acc :
  let acc' := fold_left dashboard_category stock_data acc in
  count_products acc' =
    count_products acc + sum_list_with (fun entry => length entry.2) stock_data
  /\ count_stock acc' =
       count_stock acc
       + sum_list_with (fun p => length (stock p)) (all_products stock_data)
  /\ length (low_products acc') =
       length (low_products acc)
       + length (filter low_on_stock (all_products stock_data)).
Proof.
  revert acc.
  induction stock_data as [|[category products] rest IH]; intros acc; cbn zeta.
  - cbn. repeat split; lia.
  - cbn [fold_left]. rewrite all_products_cons.
    destruct (IH (dashboard_category acc (category, products)))
      as (Hproducts & Hstock & Hlow).
    rewrite Hproducts, Hstock, Hlow. unfold dashboard_category.
    destruct (dashboard_products_counts category products
                {| count_products := count_products acc + length products;
                   count_stock := count_stock acc;
                   low_products := low_products acc |})
      as (Hp & Hs & Hl).
    rewrite Hp, Hs, Hl. cbn.
    rewrite sum_list_with_app, list.filter_app, length_app.
    repeat split; lia.
Qed.

Section Dashboard.
Context {json : JSON}.

(** C5: on every catalog the dashboard reports as [total_categories] the
    number of categories, as [total_products] the sum of the lengths of their
    product lists, as [total_stock_items] the sum of the stock lengths of
    all products, and as [low_stock_count] the number of products whose
    stock holds 3 items or fewer; on the seed catalog, stored or made up
    because the file is missing, these are 2, 2, 6 and 1. *)
Theorem dashboard_totals fs data now :
  (stored fs data ->
   exists stats,
     get_dashboard_stats now fs = (Return stats, fs)
     /\ total_categories stats = length data
     /\ total_products stats = sum_list_with (fun entry => length entry.2) data
     /\ total_stock_items stats =
          sum_list_with (fun p => length (stock p)) (all_products data)
     /\ low_stock_count stats =
          length (filter low_on_stock (all_products data)))
  /\ (stored fs default_data \/ STOCK_FILE fs = None ->
      exists stats fs',
        get_dashboard_stats now fs = (Return stats, fs')
        /\ total_categories stats = 2
        /\ total_products stats = 2
        /\ total_stock_items stats = 6
        /\ low_stock_count stats = 1).
Proof.
  split.
  - intros Hstored.
    unfold get_dashboard_stats, except_Exception_500, try_except, bind.
    rewrite (load_stored _ _ _ Hstored). eexists. split; [reflexivity|].
    destruct (dashboard_counters_counts data
                {| count_products := 0; count_stock := 0; low_products := [] |})
      as (Hproducts & Hstock & Hlow).
    cbn [total_categories total_products total_stock_items low_stock_count].
    unfold dashboard_counters.
    rewrite Hproducts, Hstock, Hlow. repeat split.
  - intros Hseed.
    assert (Hload : exists fs', load_stock_data now fs = (Return default_data, fs')).
    { destruct Hseed as [Hstored|Hfile].
      - rewrite (load_stored _ _ _ Hstored). eauto.
      - rewrite (load_absent _ _ Hfile). eauto. }
    destruct Hload as (fs' & Hload).
    unfold get_dashboard_stats, except_Exception_500, try_except, bind.
    rewrite Hload. eexists _, _. split; [reflexivity|].
    repeat split.
Qed.

End Dashboard.

(** ** Lookup by id *)

Section Lookup.
Context {json : JSON}.

(** C6: on every catalog whose product ids are all different,
    [get_product] called with the id of a product of the catalog returns
    exactly that product; called with an id that no product of the catalog
    holds, it raises 404. *)
Theorem get_product_by_id fs data now :
  stored fs data ->
  NoDup (map id (all_products data)) ->
  (forall p, p ∈ all_products data ->
             get_product (id p) now fs = (Return p, fs))
  /\ (forall product_id,
         (forall q, q ∈ all_products data -> id q <> product_id) ->
         get_product product_id now fs = (Raise (HTTPException 404), fs)).
Proof.
  intros Hstored Hnodup. split.
  - intros p Hin. rewrite (get_product_on_stored _ _ _ _ Hstored).
    destruct (scan_catalog_unique _ _ Hnodup Hin) as (category & ->).
    reflexivity.
  - intros product_id Hnone. rewrite (get_product_on_stored _ _ _ _ Hstored).
    rewrite (scan_catalog_none _ _ (not_held_no_product _ _ Hnone)).
    reflexivity.
Qed.

End Lookup.

(** ** Saving *)

Section Backup.
Context {json : JSON}.

(** C7 as the code has it: when the store file exists, [save_stock_data]
    first writes the text it reads from it into the backup file
    [stock_backup_<YYYYMMDD_HHMMSS>.json] of the backup directory and then
    dumps the catalog over the store file; the text read is the file's own
    whenever the file holds no carriage return.  Without a store file the
    backup directory is left alone.  Either way the save returns [True] when
    the catalog can be dumped, the store file then holding its
    serialization, and raises 500 when it cannot, the store file then holding
    what the dump wrote before it raised. *)
Theorem save_backs_up_then_overwrites fs data now :
  (forall original,
      STOCK_FILE fs = Some original ->
      save_stock_data data now fs =
        (saved data,
         {| STOCK_FILE := Some (json_dump data);
            BACKUP_DIR :=
              <[backup_file_name now := read_text original]> (BACKUP_DIR fs) |})
      /\ (has_CR original = false -> read_text original = original))
  /\ (STOCK_FILE fs = None ->
      save_stock_data data now fs =
        (saved data,
         {| STOCK_FILE := Some (json_dump data); BACKUP_DIR := BACKUP_DIR fs |}))
  /\ (encodable data = true -> saved data = Return true)
  /\ (encodable data = false -> saved data = Raise (HTTPException 500))
  /\ backup_file_name now = ("stock_backup_" ++ strftime now ++ ".json")%string
  /\ String.length (strftime now) = 15.
Proof.
  split; [|split; [|split; [|split; [|split]]]].
  - intros original Hfile. split.
    + exact (save_existing _ _ _ _ Hfile).
    + apply read_text_no_CR.
  - apply save_absent.
  - unfold saved. intros ->. reflexivity.
  - unfold saved. intros ->. reflexivity.
  - reflexivity.
  - reflexivity.
Qed.

End Backup.

(** ** What a consume changes *)

Section Frame.
Context {json : JSON} {laws : JSONLaws}.

(** C8: a consume that succeeds changes one product of the persisted
    catalog and, of that product, the stock only: the catalog read back from
    the store file has the same categories in the same order, each with the
    same products in the same order, but for the product consumed from,
    which keeps its id, name, image, imagehover, description, price and
    delivery method and has lost the head of its stock. *)
Theorem consume_changes_only_that_stock fs data product_id now response fs' :
  stored fs data ->
  consume_stock_item product_id now fs = (Return response, fs') ->
  exists pre category before product after post remaining product',
    data = pre ++ (category, before ++ product :: after) :: post
    /\ id product = product_id
    /\ stock product = consumed_license response :: remaining
    /\ stored fs' (pre ++ (category, before ++ product' :: after) :: post)
    /\ id product' = id product
    /\ name product' = name product
    /\ image product' = image product
    /\ imagehover product' = imagehover product
    /\ description product' = description product
    /\ price product' = price product
    /\ delivery_method product' = delivery_method product
    /\ stock product' = remaining.
Proof.
  intros Hstored Hrun.
  destruct (no_product_with_dec product_id (all_products data)) as [Hnone|Hsome].
  - rewrite (consume_unknown _ _ _ _ Hstored Hnone) in Hrun. discriminate.
  - destruct (first_match_exists _ _ Hsome)
      as (pre & category & before & product & after & post & Hfirst).
    destruct (stock product) as [|consumed remaining] eqn:Hstock.
    + rewrite (consume_out_of_stock _ _ _ _ _ _ _ _ _ _ Hstored Hfirst Hstock)
        in Hrun.
      discriminate.
    + destruct (encodable (replace_stock pre category before product after post
                                         remaining)) eqn:Hdump.
      2:{ destruct (consume_dump_raises _ _ _ now _ _ _ _ _ _ _ _
                      Hstored Hfirst Hstock Hdump) as (fs1 & Hraise & _).
          rewrite Hraise in Hrun. discriminate. }
      destruct (consume_pops _ _ _ now _ _ _ _ _ _ _ _ Hstored Hfirst Hstock Hdump)
        as (fs1 & Hpop & _ & Hstored1).
      rewrite Hpop in Hrun. injection Hrun as <- <-.
      exists pre, category, before, product, after, post, remaining,
        (with_stock product remaining).
      split; [exact (proj1 Hfirst)|].
      split; [exact (proj2 (proj2 (proj2 Hfirst)))|]. split; [exact Hstock|].
      split; [exact Hstored1|]. repeat split.
Qed.

(** C9 as the code has it: when several products hold the requested id,
    [get_product], [get_product_stock] and [consume_stock_item] all work on
    the first of them in iteration order (categories in their order, then
    products in theirs).  The consume raises 400 if the stock of that one is
    empty and pops it otherwise; when the catalog so changed can be dumped, it
    is what the store file holds afterwards, with every product after the
    first holder, the later holders of the id among them, as they were; when
    it cannot, the request raises 500 and the store file no longer loads. *)
Theorem duplicates_first_match fs data product_id now
        pre category before product after post :
  stored fs data ->
  first_match data product_id pre category before product after post ->
  get_product product_id now fs = (Return product, fs)
  /\ get_product_stock product_id now fs =
       (Return {| summary_product_id := product_id;
                  summary_product_name := name product;
                  summary_category := category;
                  stock_count := length (stock product);
                  available := 0 <? length (stock product);
                  summary_delivery_method := delivery_method product |}, fs)
  /\ match stock product with
     | consumed :: remaining =>
         if encodable (pre ++ (category,
                               before ++ with_stock product remaining :: after)
                           :: post)
         then
           exists fs',
             consume_stock_item product_id now fs =
               (Return {| success := true;
                          product_id := product_id;
                          product_name := name product;
                          category := category;
                          consumed_license := consumed;
                          remaining_stock := length remaining;
                          message := "Stock item consumed successfully" |}, fs')
             /\ stored fs'
                  (pre ++ (category,
                           before ++ with_stock product remaining :: after)
                       :: post)
         else
           exists fs',
             consume_stock_item product_id now fs
             = (Raise (HTTPException 500), fs')
             /\ unreadable fs'
     | [] =>
         consume_stock_item product_id now fs = (Raise (HTTPException 400), fs)
     end.
Proof.
  intros Hstored Hfirst. split; [|split].
  - rewrite (get_product_on_stored _ _ _ _ Hstored).
    rewrite (scan_catalog_first _ _ _ _ _ _ _ _ Hfirst). reflexivity.
  - rewrite (get_product_stock_on_stored _ _ _ _ Hstored).
    rewrite (scan_catalog_first _ _ _ _ _ _ _ _ Hfirst). reflexivity.
  - destruct (stock product) as [|consumed remaining] eqn:Hstock.
    + exact (consume_out_of_stock _ _ _ _ _ _ _ _ _ _ Hstored Hfirst Hstock).
    + destruct (encodable (pre ++ (category,
                                   before ++ with_stock product remaining :: after)
                               :: post)) eqn:Hdump.
      * destruct (consume_pops _ _ _ now _ _ _ _ _ _ _ _
                    Hstored Hfirst Hstock Hdump) as (fs1 & Hpop & _ & Hstored1).
        exists fs1. split; assumption.
      * destruct (consume_dump_raises _ _ _ now _ _ _ _ _ _ _ _
                    Hstored Hfirst Hstock Hdump) as (fs1 & Hraise & _ & Hbad).
        exists fs1. split; assumption.
Qed.

End Frame.

(** ** Reading depends on the store file only *)

Section Determinism.
Context {json : JSON}.

Lemma load_depends_on_file fs1 fs2 now1 now2 :
  STOCK_FILE fs1 = STOCK_FILE fs2 ->
  (load_stock_data now1 fs1).1 = (load_stock_data now2 fs2).1.
Proof.
  intros Hsame. destruct (STOCK_FILE fs2) as [content|] eqn:Hfile.
  - rewrite (load_existing _ _ _ Hsame), (load_existing _ _ _ Hfile).
    destruct (json_load (read_text content)); reflexivity.
  - rewrite (load_absent _ _ Hsame), (load_absent _ _ Hfile). reflexivity.
Qed.

(** Takes two runs of a reading handler to their loads. *)
Ltac same_load fs1 fs2 now1 now2 Hsame :=
  unfold get_all_products, get_product, get_categories,
    get_products_by_category, get_product_stock,
    except_HTTPException_reraise, except_Exception_500, try_except, bind;
  pose proof (load_depends_on_file fs1 fs2 now1 now2 Hsame) as Hload;
  destruct (load_stock_data now1 fs1) as [[data1|e1] fs1'];
  destruct (load_stock_data now2 fs2) as [[data2|e2] fs2'];
  cbn [fst] in Hload; try discriminate Hload.

(** C10: the five reading endpoints (all products, product by id,
    categories, category by name, stock summary) answer from the contents of
    the store file and the request input alone: run on two file systems with
    the same store file, at any two clock readings and whatever the backup
    directories hold, each gives the same response. *)
Theorem reads_depend_on_store_file_only fs1 fs2 now1 now2 product_id category_name :
  STOCK_FILE fs1 = STOCK_FILE fs2 ->
  (get_all_products now1 fs1).1 = (get_all_products now2 fs2).1
  /\ (get_product product_id now1 fs1).1 = (get_product product_id now2 fs2).1
  /\ (get_categories now1 fs1).1 = (get_categories now2 fs2).1
  /\ (get_products_by_category category_name now1 fs1).1
     = (get_products_by_category category_name now2 fs2).1
  /\ (get_product_stock product_id now1 fs1).1
     = (get_product_stock product_id now2 fs2).1.
Proof.
  intros Hsame. repeat split.
  - same_load fs1 fs2 now1 now2 Hsame; [|reflexivity].
    injection Hload as ->. reflexivity.
  - same_load fs1 fs2 now1 now2 Hsame.
    + injection Hload as ->.
      destruct (scan_catalog data2 product_id) as [[c p]|]; reflexivity.
    + injection Hload as ->. destruct e2; reflexivity.
  - same_load fs1 fs2 now1 now2 Hsame; [|reflexivity].
    injection Hload as ->. reflexivity.
  - same_load fs1 fs2 now1 now2 Hsame.
    + injection Hload as ->.
      destruct (dict_get data2 category_name); reflexivity.
    + injection Hload as ->. destruct e2; reflexivity.
  - same_load fs1 fs2 now1 now2 Hsame.
    + injection Hload as ->.
      destruct (scan_catalog data2 product_id) as [[c p]|]; reflexivity.
    + injection Hload as ->. destruct e2; reflexivity.
Qed.

End Determinism.

(** * Further properties *)

(** ** The listings *)

Lemma extend_all_from (stock_data : Catalog) (listed : list Product) :
  fold_left (fun all_products '(category, products) => all_products ++ products)
            stock_data listed
  = listed ++ all_products stock_data.
Proof.
  revert listed.
  induction stock_data as [|[c ps] rest IH]; intros listed; cbn [fold_left].
  - change (all_products []) with (@nil Product). rewrite app_nil_r. reflexivity.
  - rewrite IH, all_products_cons, app_assoc. reflexivity.
Qed.

Lemma extend_all_all_products stock_data :
  extend_all stock_data = all_products stock_data.
Proof. unfold extend_all. rewrite extend_all_from. reflexivity. Qed.

Lemma append_categories_from (stock_data : Catalog) (listed : list CategorySummary) :
  fold_left (fun categories '(category_name, products) =>
               categories ++ [ {| summary_name := category_name;
                                  product_count := length products |} ])
            stock_data listed
  = listed ++ map category_entry stock_data.
Proof.
  revert listed. induction stock_data as [|[c ps] rest IH]; intros listed; cbn.
  - rewrite app_nil_r. reflexivity.
  - rewrite IH, <- app_assoc. reflexivity.
Qed.

Lemma append_categories_map stock_data :
  append_categories stock_data = map category_entry stock_data.
Proof. unfold append_categories. rewrite append_categories_from. reflexivity. Qed.

Lemma length_all_products (stock_data : Catalog) :
  length (all_products stock_data)
  = sum_list_with (fun entry => length entry.2) stock_data.
Proof.
  induction stock_data as [|[c ps] rest IH]; [reflexivity|].
  rewrite all_products_cons, length_app, IH. reflexivity.
Qed.

Lemma sum_product_counts (stock_data : Catalog) :
  sum_list_with product_count (map category_entry stock_data)
  = sum_list_with (fun entry => length entry.2) stock_data.
Proof.
  induction stock_data as [|entry rest IH]; [reflexivity|].
  cbn. rewrite IH. reflexivity.
Qed.

Lemma elem_of_all_products (stock_data : Catalog) (p : Product) :
  p ∈ all_products stock_data <->
  exists category products, (category, products) ∈ stock_data /\ p ∈ products.
Proof.
  induction stock_data as [|[c ps] rest IH].
  - split; [intros Hin; inversion Hin | intros (? & ? & Hin & _); inversion Hin].
  - rewrite all_products_cons, elem_of_app, IH. split.
    + intros [Hin|(category & products & Hentry & Hin)].
      * exists c, ps. split; [apply list_elem_of_here | exact Hin].
      * exists category, products.
        split; [apply list_elem_of_further, Hentry | exact Hin].
    + intros (category & products & Hentry & Hin).
      apply elem_of_cons in Hentry as [[= -> ->]|Hentry]; [left; exact Hin|].
      right. exists category, products. split; assumption.
Qed.

Lemma dict_get_none (stock_data : Catalog) (category_name : string) :
  dict_get stock_data category_name = None <-> category_name ∉ map fst stock_data.
Proof.
  induction stock_data as [|[c ps] rest IH]; cbn.
  - split; [intros _ Hin; inversion Hin | reflexivity].
  - rewrite not_elem_of_cons.
    destruct (String.eqb_spec c category_name) as [->|Hne].
    + split; [discriminate | intros [Hne _]; congruence].
    + rewrite IH. split; [intros Hnot; split; congruence | intros [_ Hnot]; exact Hnot].
Qed.

Lemma dict_get_entry (stock_data : Catalog) (category_name : string) products :
  dict_keys_unique stock_data ->
  (category_name, products) ∈ stock_data ->
  dict_get stock_data category_name = Some products.
Proof.
  unfold dict_keys_unique.
  induction stock_data as [|[c ps] rest IH]; intros Hdict Hin; [inversion Hin|].
  cbn [map fst] in Hdict. apply list.NoDup_cons in Hdict as [Hfresh Hdict].
  cbn [dict_get].
  apply elem_of_cons in Hin as [[= -> ->]|Hin].
  - rewrite String.eqb_refl. reflexivity.
  - destruct (String.eqb_spec c category_name) as [->|Hne]; [|exact (IH Hdict Hin)].
    exfalso. apply Hfresh. apply list_elem_of_In.
    apply (in_map fst _ (category_name, products)), list_elem_of_In, Hin.
Qed.

Lemma products_under_keys (stock_data : Catalog) :
  dict_keys_unique stock_data ->
  concat (map (products_under stock_data) (map fst stock_data))
  = all_products stock_data.
Proof.
  unfold dict_keys_unique.
  induction stock_data as [|[c ps] rest IH]; intros Hdict; [reflexivity|].
  cbn [map fst] in Hdict. pose proof Hdict as Hcons.
  apply list.NoDup_cons in Hdict as [Hfresh Hdict].
  cbn [map fst concat]. rewrite all_products_cons. f_equal.
  - unfold products_under. cbn. rewrite String.eqb_refl. reflexivity.
  - rewrite <- (IH Hdict). f_equal. apply map_ext_in. intros k Hk.
    unfold products_under. cbn.
    destruct (String.eqb_spec c k) as [->|Hne]; [|reflexivity].
    exfalso. apply Hfresh, list_elem_of_In, Hk.
Qed.

Lemma find_app_first {A} (f : A -> bool) (l1 l2 : list A) :
  List.find f (l1 ++ l2) =
    match List.find f l1 with
    | Some x => Some x
    | None => List.find f l2
    end.
Proof.
  induction l1 as [|x l1 IH]; [reflexivity|]. cbn.
  destruct (f x); [reflexivity | exact IH].
Qed.

Lemma scan_products_find products product_id :
  scan_products products product_id = List.find (has_id product_id) products.
Proof.
  induction products as [|q rest IH]; [reflexivity|]. cbn. unfold has_id at 1.
  destruct (id q =? product_id)%Z; [reflexivity | exact IH].
Qed.

Lemma scan_catalog_find stock_data product_id :
  snd <$> scan_catalog stock_data product_id
  = List.find (has_id product_id) (all_products stock_data).
Proof.
  induction stock_data as [|[c ps] rest IH]; [reflexivity|].
  rewrite all_products_cons, find_app_first, <- scan_products_find. cbn.
  destruct (scan_products ps product_id); [reflexivity | exact IH].
Qed.

Section Listings.
Context {json : JSON}.

Lemma get_all_products_on_stored fs data now :
  stored fs data -> get_all_products now fs = (Return (all_products data), fs).
Proof.
  intros Hstored. unfold get_all_products, except_Exception_500, try_except, bind.
  rewrite (load_stored _ _ _ Hstored), extend_all_all_products. reflexivity.
Qed.

Lemma get_categories_on_stored fs data now :
  stored fs data ->
  get_categories now fs = (Return (map category_entry data), fs).
Proof.
  intros Hstored. unfold get_categories, except_Exception_500, try_except, bind.
  rewrite (load_stored _ _ _ Hstored), append_categories_map. reflexivity.
Qed.

Lemma get_products_by_category_on_stored fs data category_name now :
  stored fs data ->
  get_products_by_category category_name now fs =
    match dict_get data category_name with
    | Some products =>
        (Return {| listed_category := category_name;
                   listed_products := products |}, fs)
    | None => (Raise (HTTPException 404), fs)
    end.
Proof.
  intros Hstored.
  unfold get_products_by_category, except_HTTPException_reraise, try_except, bind.
  rewrite (load_stored _ _ _ Hstored).
  destruct (dict_get data category_name); reflexivity.
Qed.

(** X1: [get_all_products] answers with the products of all categories in
    one list, category after category in the order of the store file and
    each category's products in their order; a product is listed exactly when
    some category holds it; nothing is written. *)
Theorem get_all_products_flattens fs data now :
  stored fs data ->
  get_all_products now fs = (Return (concat (map snd data)), fs)
  /\ forall p,
       p ∈ concat (map snd data) <->
       exists category products, (category, products) ∈ data /\ p ∈ products.
Proof.
  intros Hstored. split.
  - exact (get_all_products_on_stored _ _ _ Hstored).
  - intros p. apply elem_of_all_products.
Qed.

(** X2: [get_categories] lists the categories in the order of the store
    file, one entry each, with the length of the category's product list as
    [product_count]; the counts add up to the length of the list that
    [get_all_products] returns. *)
Theorem categories_count_all_products fs data now :
  stored fs data ->
  exists categories listed,
    get_categories now fs = (Return categories, fs)
    /\ get_all_products now fs = (Return listed, fs)
    /\ map summary_name categories = map fst data
    /\ map product_count categories = map (fun entry => length entry.2) data
    /\ sum_list_with product_count categories = length listed.
Proof.
  intros Hstored. exists (map category_entry data), (all_products data).
  split; [exact (get_categories_on_stored _ _ _ Hstored)|].
  split; [exact (get_all_products_on_stored _ _ _ Hstored)|].
  rewrite !map_map, length_all_products, sum_product_counts. repeat split.
Qed.

End Listings.

Section Partition.
Context {json : JSON} {laws : JSONLaws}.

(** X3: [get_products_by_category] raises 404 exactly for the names that are
    no category of the store file and answers with the product list of the
    category otherwise; asked for every name [get_categories] lists, in that
    order, its answers put end to end are the list [get_all_products]
    returns. *)
Theorem categories_partition_products fs data now :
  stored fs data ->
  (forall category_name,
      category_name ∉ map fst data <->
      get_products_by_category category_name now fs
      = (Raise (HTTPException 404), fs))
  /\ (forall category_name products,
         (category_name, products) ∈ data ->
         get_products_by_category category_name now fs
         = (Return {| listed_category := category_name;
                      listed_products := products |}, fs))
  /\ exists categories listed,
       get_categories now fs = (Return categories, fs)
       /\ get_all_products now fs = (Return listed, fs)
       /\ concat (map (listed_under fs now) (map summary_name categories)) = listed.
Proof.
  intros Hstored. pose proof (stored_dict _ _ Hstored) as Hdict.
  split; [|split].
  - intros category_name.
    rewrite (get_products_by_category_on_stored _ _ _ _ Hstored).
    rewrite <- dict_get_none.
    destruct (dict_get data category_name); split; congruence.
  - intros category_name products Hin.
    rewrite (get_products_by_category_on_stored _ _ _ _ Hstored).
    rewrite (dict_get_entry _ _ _ Hdict Hin). reflexivity.
  - exists (map category_entry data), (all_products data).
    split; [exact (get_categories_on_stored _ _ _ Hstored)|].
    split; [exact (get_all_products_on_stored _ _ _ Hstored)|].
    rewrite <- (products_under_keys _ Hdict), !map_map. f_equal.
    apply map_ext. intros [category_name products].
    unfold listed_under, products_under. cbn [category_entry summary_name fst].
    rewrite (get_products_by_category_on_stored _ _ _ _ Hstored).
    destruct (dict_get data category_name); reflexivity.
Qed.

End Partition.

Section FirstListed.
Context {json : JSON}.

(** X4: [get_product] answers with the first product of the list that
    [get_all_products] returns whose id is the one asked for, and raises 404
    exactly when that list holds none. *)
Theorem get_product_is_first_listed fs data product_id now :
  stored fs data ->
  exists listed,
    get_all_products now fs = (Return listed, fs)
    /\ get_product product_id now fs =
         match List.find (has_id product_id) listed with
         | Some product => (Return product, fs)
         | None => (Raise (HTTPException 404), fs)
         end.
Proof.
  intros Hstored. exists (all_products data).
  split; [exact (get_all_products_on_stored _ _ _ Hstored)|].
  rewrite (get_product_on_stored _ _ _ _ Hstored), <- scan_catalog_find.
  destruct (scan_catalog data product_id) as [[category product]|]; reflexivity.
Qed.

End FirstListed.

(** ** Consuming, seen through the other endpoints *)

Lemma all_products_around (pre : Catalog) category before (q : Product) after
      (post : Catalog) :
  all_products (pre ++ (category, before ++ q :: after) :: post)
  = all_products pre ++ before ++ q :: after ++ all_products post.
Proof.
  rewrite all_products_app, all_products_cons, <- !app_assoc. reflexivity.
Qed.

Lemma scan_products_other before product after new_stock product_id :
  id product <> product_id ->
  scan_products (before ++ with_stock product new_stock :: after) product_id
  = scan_products (before ++ product :: after) product_id.
Proof.
  intros Hother. induction before as [|q before IH]; cbn.
  - apply Z.eqb_neq in Hother. rewrite Hother. reflexivity.
  - rewrite IH. reflexivity.
Qed.

(** Replacing the stock of a product does not move what the scan finds for
    another id. *)
Lemma scan_catalog_other pre category before product after post new_stock product_id :
  id product <> product_id ->
  scan_catalog (replace_stock pre category before product after post new_stock)
               product_id
  = scan_catalog (pre ++ (category, before ++ product :: after) :: post) product_id.
Proof.
  intros Hother. unfold replace_stock.
  induction pre as [|[c ps] pre IH]; cbn.
  - rewrite (scan_products_other _ _ _ _ _ Hother). reflexivity.
  - rewrite IH. reflexivity.
Qed.

Lemma category_entries_replace pre category before product after post new_stock :
  map category_entry (replace_stock pre category before product after post new_stock)
  = map category_entry (pre ++ (category, before ++ product :: after) :: post).
Proof.
  unfold replace_stock. rewrite !map_app. cbn [map]. f_equal. f_equal.
  unfold category_entry. cbn. rewrite !length_app. reflexivity.
Qed.

Lemma low_on_stock_kept product remaining consumed :
  stock product = consumed :: remaining ->
  low_on_stock product -> low_on_stock (with_stock product remaining).
Proof.
  unfold low_on_stock. intros ->. cbn. lia.
Qed.

Section ConsumeSeen.
Context {json : JSON}.

Lemma dashboard_on_stored fs data now :
  stored fs data ->
  get_dashboard_stats now fs =
    (Return {| total_categories := length data;
               total_products := count_products (dashboard_counters data);
               total_stock_items := count_stock (dashboard_counters data);
               low_stock_products := low_products (dashboard_counters data);
               low_stock_count := length (low_products (dashboard_counters data));
               updated_at := now |}, fs).
Proof.
  intros Hstored.
  unfold get_dashboard_stats, except_Exception_500, try_except, bind.
  rewrite (load_stored _ _ _ Hstored). reflexivity.
Qed.

(** A consume that returns: where it hit, what it answered, what it left. *)
Lemma consume_success_inv fs data product_id now response fs' :
  stored fs data ->
  consume_stock_item product_id now fs = (Return response, fs') ->
  exists content pre category before product after post consumed remaining,
    STOCK_FILE fs = Some content
    /\ json_load (read_text content) = Some data
    /\ first_match data product_id pre category before product after post
    /\ stock product = consumed :: remaining
    /\ encodable (replace_stock pre category before product after post remaining)
       = true
    /\ response = {| success := true;
                     product_id := product_id;
                     product_name := name product;
                     category := category;
                     consumed_license := consumed;
                     remaining_stock := length remaining;
                     message := "Stock item consumed successfully" |}
    /\ fs' = {| STOCK_FILE :=
                  Some (json_dump
                          (replace_stock pre category before product after post
                                         remaining));
                BACKUP_DIR :=
                  <[backup_file_name now := read_text content]> (BACKUP_DIR fs) |}.
Proof.
  intros (content & Hfile & Hparse) Hrun.
  rewrite (consume_on_stored _ _ _ _ _ Hfile Hparse) in Hrun.
  destruct (no_product_with_dec product_id (all_products data)) as [Hnone|Hsome].
  - rewrite (consume_catalog_none _ _ Hnone) in Hrun. discriminate.
  - destruct (first_match_exists _ _ Hsome)
      as (pre & category & before & product & after & post & Hfirst).
    rewrite (consume_catalog_first _ _ _ _ _ _ _ _ Hfirst) in Hrun.
    destruct (stock product) as [|consumed remaining] eqn:Hstock; [discriminate|].
    destruct (encodable (replace_stock pre category before product after post
                                       remaining)) eqn:Hdump; [|discriminate].
    injection Hrun as <- <-.
    exists content, pre, category, before, product, after, post, consumed, remaining.
    repeat split; try assumption; apply Hfirst.
Qed.

(** X5: what [get_product_stock] reports tells how a consume of the same id
    on the same files ends.  With [available] true the consume pops: when the
    catalog it then saves can be dumped it succeeds, for the same product and
    category, and leaves one item less than the [stock_count] reported, and
    when it cannot the consume raises 500.  With [available] false the count
    is 0 and the consume raises 400; and the one raises 404 exactly when the
    other does. *)
Theorem availability_predicts_consume fs data product_id now later :
  stored fs data ->
  (exists summary,
      get_product_stock product_id now fs = (Return summary, fs)
      /\ available summary = true
      /\ if encodable (catalog_after data product_id) then
           exists response fs',
             consume_stock_item product_id later fs = (Return response, fs')
             /\ S (remaining_stock response) = stock_count summary
             /\ product_name response = summary_product_name summary
             /\ category response = summary_category summary
         else
           exists fs',
             consume_stock_item product_id later fs
             = (Raise (HTTPException 500), fs'))
  \/ (exists summary,
         get_product_stock product_id now fs = (Return summary, fs)
         /\ available summary = false
         /\ stock_count summary = 0
         /\ consume_stock_item product_id later fs = (Raise (HTTPException 400), fs))
  \/ (get_product_stock product_id now fs = (Raise (HTTPException 404), fs)
      /\ consume_stock_item product_id later fs = (Raise (HTTPException 404), fs)).
Proof.
  intros Hstored. pose proof Hstored as (content & Hfile & Hparse).
  rewrite (get_product_stock_on_stored _ _ _ _ Hstored).
  rewrite (consume_on_stored _ _ _ _ _ Hfile Hparse).
  unfold catalog_after.
  destruct (no_product_with_dec product_id (all_products data)) as [Hnone|Hsome].
  - right. right.
    rewrite (scan_catalog_none _ _ Hnone), (consume_catalog_none _ _ Hnone).
    split; reflexivity.
  - destruct (first_match_exists _ _ Hsome)
      as (pre & category & before & product & after & post & Hfirst).
    rewrite (scan_catalog_first _ _ _ _ _ _ _ _ Hfirst).
    rewrite (consume_catalog_first _ _ _ _ _ _ _ _ Hfirst).
    destruct (stock product) as [|consumed remaining] eqn:Hstock.
    + right. left. eexists. repeat split.
    + left. eexists. split; [reflexivity|]. split; [reflexivity|].
      destruct (encodable (replace_stock pre category before product after post
                                         remaining)).
      * eexists _, _. repeat split.
      * eexists. reflexivity.
Qed.

End ConsumeSeen.

Section AfterConsume.
Context {json : JSON} {laws : JSONLaws}.

Lemma stored_after_consume fs data product_id now response fs' :
  stored fs data ->
  consume_stock_item product_id now fs = (Return response, fs') ->
  exists pre held_in before product after post consumed remaining,
    first_match data product_id pre held_in before product after post
    /\ stock product = consumed :: remaining
    /\ remaining_stock response = length remaining
    /\ product_name response = name product
    /\ category response = held_in
    /\ stored fs' (replace_stock pre held_in before product after post remaining).
Proof.
  intros Hstored Hrun.
  destruct (consume_success_inv _ _ _ _ _ _ Hstored Hrun)
    as (content & pre & held_in & before & product & after & post & consumed
        & remaining & _ & _ & Hfirst & Hstock & Hdump & -> & ->).
  exists pre, held_in, before, product, after, post, consumed, remaining.
  repeat split; try assumption; try apply Hfirst.
  apply stored_written; [|exact Hdump].
  exact (replace_stock_dict _ _ _ _ _ _ _ _ _ Hfirst (stored_dict _ _ Hstored)).
Qed.

(** X6: after a consume that succeeded, [get_product_stock] for the same id
    reports as [stock_count] the [remaining_stock] the consume returned, as
    [available] whether that is positive, and the same product name and
    category. *)
Theorem consume_then_stock_summary fs data product_id now later response fs' :
  stored fs data ->
  consume_stock_item product_id now fs = (Return response, fs') ->
  exists summary,
    get_product_stock product_id later fs' = (Return summary, fs')
    /\ stock_count summary = remaining_stock response
    /\ available summary = (0 <? remaining_stock response)
    /\ summary_product_name summary = product_name response
    /\ summary_category summary = category response.
Proof.
  intros Hstored Hrun.
  destruct (stored_after_consume _ _ _ _ _ _ Hstored Hrun)
    as (pre & cat & before & product & after & post & consumed & remaining
        & Hfirst & Hstock & -> & -> & -> & Hstored').
  rewrite (get_product_stock_on_stored _ _ _ _ Hstored').
  rewrite (scan_catalog_first _ _ _ _ _ _ _ _
             (replace_stock_first _ _ _ _ _ _ _ _ remaining Hfirst)).
  eexists. repeat split.
Qed.

(** X7: a consume that succeeded changes nothing for any other id:
    [get_product] and [get_product_stock] answer for it after the consume
    as they did before, 404 included. *)
Theorem consume_keeps_other_ids fs data product_id other_id now later response fs' :
  stored fs data ->
  consume_stock_item product_id now fs = (Return response, fs') ->
  other_id <> product_id ->
  (get_product other_id later fs').1 = (get_product other_id now fs).1
  /\ (get_product_stock other_id later fs').1
     = (get_product_stock other_id now fs).1.
Proof.
  intros Hstored Hrun Hother.
  destruct (stored_after_consume _ _ _ _ _ _ Hstored Hrun)
    as (pre & cat & before & product & after & post & consumed & remaining
        & Hfirst & _ & _ & _ & _ & Hstored').
  rewrite (get_product_on_stored _ _ _ _ Hstored').
  rewrite (get_product_on_stored _ _ _ _ Hstored).
  rewrite (get_product_stock_on_stored _ _ _ _ Hstored').
  rewrite (get_product_stock_on_stored _ _ _ _ Hstored).
  destruct Hfirst as (Hdata & _ & _ & Hid).
  rewrite scan_catalog_other by congruence. rewrite <- Hdata.
  destruct (scan_catalog data other_id) as [[c p]|]; split; reflexivity.
Qed.

(** X8: a consume that succeeded takes exactly one off the dashboard's
    [total_stock_items] and leaves [total_categories], [total_products] and
    the answer of [get_categories] as they were; [low_stock_count] does not
    go down. *)
Theorem consume_moves_totals fs data product_id now before_it after_it response fs' :
  stored fs data ->
  consume_stock_item product_id now fs = (Return response, fs') ->
  exists stats stats',
    get_dashboard_stats before_it fs = (Return stats, fs)
    /\ get_dashboard_stats after_it fs' = (Return stats', fs')
    /\ total_categories stats' = total_categories stats
    /\ total_products stats' = total_products stats
    /\ S (total_stock_items stats') = total_stock_items stats
    /\ low_stock_count stats <= low_stock_count stats'
    /\ (get_categories after_it fs').1 = (get_categories before_it fs).1.
Proof.
  intros Hstored Hrun.
  destruct (stored_after_consume _ _ _ _ _ _ Hstored Hrun)
    as (pre & cat & before & product & after & post & consumed & remaining
        & Hfirst & Hstock & _ & _ & _ & Hstored').
  eexists _, _.
  split; [exact (dashboard_on_stored _ _ _ Hstored)|].
  split; [exact (dashboard_on_stored _ _ _ Hstored')|].
  cbn [total_categories total_products total_stock_items low_stock_count].
  rewrite (get_categories_on_stored _ _ _ Hstored').
  rewrite (get_categories_on_stored _ _ _ Hstored).
  destruct Hfirst as (-> & _ & _ & _).
  destruct (dashboard_counters_counts
              (pre ++ (cat, before ++ product :: after) :: post)
              {| count_products := 0; count_stock := 0; low_products := [] |})
    as (Hproducts & Hitems & Hlow).
  destruct (dashboard_counters_counts
              (replace_stock pre cat before product after post remaining)
              {| count_products := 0; count_stock := 0; low_products := [] |})
    as (Hproducts' & Hitems' & Hlow').
  unfold dashboard_counters.
  rewrite Hproducts, Hitems, Hlow, Hproducts', Hitems', Hlow'.
  rewrite category_entries_replace.
  rewrite <- !length_all_products.
  unfold replace_stock. rewrite !all_products_around.
  rewrite !sum_list_with_app, !list.filter_app. cbn [sum_list_with].
  rewrite !sum_list_with_app, !filter_cons, !length_app. cbn [length].
  rewrite !length_app, Hstock. cbn [stock with_stock length].
  split; [reflexivity|]. split; [reflexivity|]. split; [lia|].
  split; [|reflexivity].
  pose proof (low_on_stock_kept _ _ _ Hstock) as Hkept.
  destruct (decide (low_on_stock product)) as [Hlow0|Hnot].
  - rewrite decide_True by exact (Hkept Hlow0). cbn [length]. lia.
  - destruct (decide (low_on_stock (with_stock product remaining)));
      cbn [length]; lia.
Qed.

End AfterConsume.

(** ** The list of products low on stock *)

Lemma dashboard_products_low category products acc :
  low_products (fold_left (dashboard_product category) products acc)
  = low_products acc ++ map (low_entry category) (filter low_on_stock products).
Proof.
  revert acc. induction products as [|p products IH]; intros acc.
  - cbn. rewrite app_nil_r. reflexivity.
  - cbn [fold_left]. rewrite IH, filter_cons.
    unfold dashboard_product, low_on_stock.
    destruct (Nat.leb_spec (length (stock p)) 3) as [Hle|Hgt]; cbn [low_products].
    + rewrite decide_True by exact Hle. rewrite <- app_assoc. reflexivity.
    + rewrite decide_False by lia. reflexivity.
Qed.

Lemma dashboard_counters_low stock_data acc :
  low_products (fold_left dashboard_category stock_data acc)
  = low_products acc
    ++ concat (map (fun entry => map (low_entry entry.1)
                                     (filter low_on_stock entry.2)) stock_data).
Proof.
  revert acc. induction stock_data as [|[c ps] rest IH]; intros acc.
  - cbn. rewrite app_nil_r. reflexivity.
  - cbn [fold_left map concat]. rewrite IH. unfold dashboard_category.
    rewrite dashboard_products_low. cbn [low_products fst snd].
    rewrite <- app_assoc. reflexivity.
Qed.

Lemma elem_of_low_entries (stock_data : Catalog) (e : LowStockProduct) :
  e ∈ concat (map (fun entry => map (low_entry entry.1)
                                    (filter low_on_stock entry.2)) stock_data)
  <-> exists category products p,
        (category, products) ∈ stock_data /\ p ∈ products
        /\ low_on_stock p /\ e = low_entry category p.
Proof.
  induction stock_data as [|[c ps] rest IH].
  - split; [intros Hin; inversion Hin | intros (? & ? & ? & Hin & _); inversion Hin].
  - cbn [map concat fst snd]. rewrite elem_of_app, IH. split.
    + intros [Hin|(category & products & p & Hentry & Hp & Hlow & He)].
      * apply list_elem_of_fmap in Hin as (p & He & Hin).
        apply list_elem_of_filter in Hin as [Hlow Hin].
        exists c, ps, p. split; [apply list_elem_of_here|]. auto.
      * exists category, products, p.
        split; [apply list_elem_of_further, Hentry|]. auto.
    + intros (category & products & p & Hentry & Hp & Hlow & He).
      apply elem_of_cons in Hentry as [[= -> ->]|Hentry].
      * left. apply list_elem_of_fmap. exists p. split; [exact He|].
        apply list_elem_of_filter. auto.
      * right. exists category, products, p. auto.
Qed.

Section LowStock.
Context {json : JSON}.

(** X9: the dashboard's [low_stock_products] holds, in the order of the
    store file, one entry for every product with 3 stock items or fewer and
    none for any other product; each entry carries the product's id, name,
    category, stock count and price, and [updated_at] is the clock reading of
    the request. *)
Theorem low_stock_products_listing fs data now :
  stored fs data ->
  exists stats,
    get_dashboard_stats now fs = (Return stats, fs)
    /\ low_stock_products stats
       = concat (map (fun entry => map (low_entry entry.1)
                                       (filter low_on_stock entry.2)) data)
    /\ (forall e, e ∈ low_stock_products stats -> low_stock e <= 3)
    /\ (forall category products p,
           (category, products) ∈ data -> p ∈ products ->
           (low_entry category p ∈ low_stock_products stats
            <-> length (stock p) <= 3))
    /\ updated_at stats = now.
Proof.
  intros Hstored. eexists. split; [exact (dashboard_on_stored _ _ _ Hstored)|].
  cbn [low_stock_products updated_at]. unfold dashboard_counters.
  rewrite dashboard_counters_low. cbn [low_products app].
  split; [reflexivity|]. split; [|split; [|reflexivity]].
  - intros e He.
    apply elem_of_low_entries in He as (c & ps & p & _ & _ & Hlow & ->).
    exact Hlow.
  - intros category products p Hentry Hp. rewrite elem_of_low_entries. split.
    + intros (c & ps & q & _ & _ & Hlow & He).
      apply (f_equal low_stock) in He. cbn in He. rewrite He. exact Hlow.
    + intros Hlow. exists category, products, p. auto.
Qed.

End LowStock.

(** ** A store file that does not parse *)

Section Unreadable.
Context {json : JSON}.

Lemma load_unreadable fs now :
  unreadable fs -> load_stock_data now fs = (Raise (HTTPException 500), fs).
Proof.
  intros (content & Hfile & Hparse).
  rewrite (load_existing _ _ _ Hfile), Hparse. reflexivity.
Qed.

Lemma consume_on_unreadable fs product_id now :
  unreadable fs ->
  consume_stock_item product_id now fs = (Raise (HTTPException 500), fs).
Proof.
  intros Hbad.
  unfold consume_stock_item, except_HTTPException_reraise, try_except, bind.
  rewrite (load_unreadable _ _ Hbad). reflexivity.
Qed.

Lemma unreadable_not_stored fs data : unreadable fs -> ~ stored fs data.
Proof.
  intros (content & Hfile & Hbad) (content' & Hfile' & Hparse).
  rewrite Hfile in Hfile'. injection Hfile' as <-.
  rewrite Hbad in Hparse. discriminate.
Qed.

(** X10: [health_check] never raises.  It answers unhealthy, with the 500 of
    the failed load, when the store file exists and does not parse, and
    writes nothing then; in every other case it answers healthy with the
    clock reading, after the load has created the store file if there was
    none. *)
Theorem health_check_never_raises fs now :
  (exists response, health_check now fs = (Return response, after_load fs))
  /\ (unreadable fs ->
      health_check now fs = (Return (unhealthy (HTTPException 500)), fs))
  /\ (~ unreadable fs ->
      health_check now fs = (Return (healthy now), after_load fs)).
Proof.
  unfold health_check, try_except, bind.
  destruct (load_cases fs now) as [[data Hload] | Hload].
  - rewrite Hload. split; [eauto|]. split; [|reflexivity].
    intros Hbad. rewrite (load_unreadable _ _ Hbad) in Hload. discriminate.
  - rewrite Hload. split; [eauto|]. split.
    + intros (content & Hfile & _). unfold after_load. rewrite Hfile. reflexivity.
    + intros Hgood. exfalso. apply Hgood.
      destruct (STOCK_FILE fs) as [content|] eqn:Hfile.
      * exists content. split; [exact Hfile|].
        rewrite (load_existing _ _ _ Hfile) in Hload.
        destruct (json_load (read_text content)); [discriminate | reflexivity].
      * rewrite (load_absent _ _ Hfile) in Hload. discriminate.
Qed.

(** X11: on a store file that exists and does not parse, every handler that
    serves data raises 500, the consume included, and none writes anything:
    the unreadable file stays as it is and no backup of it is taken. *)
Theorem unreadable_store_answers_500 fs now product_id category_name :
  unreadable fs ->
  get_all_products now fs = (Raise (HTTPException 500), fs)
  /\ get_product product_id now fs = (Raise (HTTPException 500), fs)
  /\ get_categories now fs = (Raise (HTTPException 500), fs)
  /\ get_products_by_category category_name now fs
     = (Raise (HTTPException 500), fs)
  /\ get_product_stock product_id now fs = (Raise (HTTPException 500), fs)
  /\ consume_stock_item product_id now fs = (Raise (HTTPException 500), fs)
  /\ get_dashboard_stats now fs = (Raise (HTTPException 500), fs).
Proof.
  intros Hbad.
  unfold get_all_products, get_product, get_categories,
    get_products_by_category, get_product_stock, consume_stock_item,
    get_dashboard_stats,
    except_HTTPException_reraise, except_Exception_500, try_except, bind.
  rewrite (load_unreadable _ _ Hbad). repeat split.
Qed.

End Unreadable.

(** ** The backups *)

Lemma read_text_bounded n : forall s,
  String.length s <= n -> has_CR (read_text s) = false.
Proof.
  induction n as [|n IH]; intros s Hlen.
  - destruct s; [reflexivity | cbn in Hlen; lia].
  - destruct s as [|c rest]; [reflexivity|]. cbn in Hlen. cbn [read_text].
    destruct (Ascii.eqb c CR) eqn:Hc.
    + destruct rest as [|c' rest'].
      * reflexivity.
      * cbn in Hlen. destruct (Ascii.eqb c' LF); cbn [has_CR].
        -- rewrite (IH rest') by lia. reflexivity.
        -- rewrite (IH (String c' rest')) by (cbn; lia). reflexivity.
    + cbn [has_CR]. rewrite Hc, (IH rest) by lia. reflexivity.
Qed.

(** What a text-mode read returns holds no carriage return, so reading it
    again changes nothing. *)
Lemma read_text_read_text s : read_text (read_text s) = read_text s.
Proof. apply read_text_no_CR, (read_text_bounded (String.length s)). lia. Qed.

Lemma digit_mod a b : digit a = digit b -> a mod 10 = b mod 10.
Proof.
  unfold digit. intros H. apply (f_equal nat_of_ascii) in H.
  pose proof (Nat.mod_upper_bound a 10). pose proof (Nat.mod_upper_bound b 10).
  rewrite !nat_ascii_embedding in H by lia. lia.
Qed.

Lemma two_digits a b :
  a < 100 -> b < 100 ->
  digit (a / 10) = digit (b / 10) -> digit a = digit b -> a = b.
Proof.
  intros Ha Hb H1 H2. apply digit_mod in H1, H2.
  pose proof (Nat.div_mod_eq a 10). pose proof (Nat.div_mod_eq b 10).
  pose proof (Nat.div_mod_eq (a / 10) 10). pose proof (Nat.div_mod_eq (b / 10) 10).
  pose proof (Nat.mod_upper_bound a 10). pose proof (Nat.mod_upper_bound b 10).
  pose proof (Nat.mod_upper_bound (a / 10) 10).
  pose proof (Nat.mod_upper_bound (b / 10) 10).
  lia.
Qed.

Lemma four_digits a b :
  a < 10 * 1000 -> b < 10 * 1000 ->
  digit (a / 1000) = digit (b / 1000) -> digit (a / 100) = digit (b / 100) ->
  digit (a / 10) = digit (b / 10) -> digit a = digit b -> a = b.
Proof.
  intros Ha Hb H1 H2 H3 H4. apply digit_mod in H1, H2, H3, H4.
  pose proof (Nat.div_mod_eq a 10). pose proof (Nat.div_mod_eq b 10).
  pose proof (Nat.div_mod_eq (a / 10) 10). pose proof (Nat.div_mod_eq (b / 10) 10).
  pose proof (Nat.div_mod_eq (a / 100) 10). pose proof (Nat.div_mod_eq (b / 100) 10).
  pose proof (Nat.div_mod_eq (a / 1000) 10).
  pose proof (Nat.div_mod_eq (b / 1000) 10).
  pose proof (Nat.Div0.div_div a 10 10) as Ea.
  pose proof (Nat.Div0.div_div b 10 10) as Eb.
  pose proof (Nat.Div0.div_div a 100 10) as Ea'.
  pose proof (Nat.Div0.div_div b 100 10) as Eb'.
  change (10 * 10) with 100 in *. change (100 * 10) with 1000 in *.
  pose proof (Nat.mod_upper_bound a 10). pose proof (Nat.mod_upper_bound b 10).
  lia.
Qed.

Lemma backup_file_name_inj t1 t2 :
  clock_reading t1 -> clock_reading t2 ->
  backup_file_name t1 = backup_file_name t2 -> t1 = t2.
Proof.
  intros (Hy1 & Hm1 & Hd1 & Hh1 & Hmi1 & Hs1) (Hy2 & Hm2 & Hd2 & Hh2 & Hmi2 & Hs2).
  destruct t1 as [y1 m1 d1 h1 mi1 s1], t2 as [y2 m2 d2 h2 mi2 s2].
  cbn [year month day hour minute second] in *.
  unfold backup_file_name, strftime, zero_pad4, zero_pad2.
  cbn [year month day hour minute second append].
  intros H.
  injection H as Hy_1 Hy_2 Hy_3 Hy_4 Hm_1 Hm_2 Hd_1 Hd_2 Hh_1 Hh_2 Hmi_1 Hmi_2
                  Hs_1 Hs_2.
  rewrite (four_digits y1 y2), (two_digits m1 m2), (two_digits d1 d2),
    (two_digits h1 h2), (two_digits mi1 mi2), (two_digits s1 s2);
    try assumption; try lia.
  reflexivity.
Qed.

Section Backups.
Context {json : JSON}.

(** X12: the backup that a successful consume takes holds the catalog as it
    was before the consume: put back as the store file it loads to that
    catalog.  It is filed under the name of the consume's second, and every
    backup under another name is left as it was. *)
Theorem consume_backup_restores fs data product_id now response fs' :
  stored fs data ->
  consume_stock_item product_id now fs = (Return response, fs') ->
  exists backup,
    BACKUP_DIR fs' !! backup_file_name now = Some backup
    /\ stored {| STOCK_FILE := Some backup; BACKUP_DIR := BACKUP_DIR fs' |} data
    /\ forall file_name,
         file_name <> backup_file_name now ->
         BACKUP_DIR fs' !! file_name = BACKUP_DIR fs !! file_name.
Proof.
  intros Hstored Hrun.
  destruct (consume_success_inv _ _ _ _ _ _ Hstored Hrun)
    as (content & pre & cat & before & product & after & post & consumed
        & remaining & Hfile & Hparse & _ & _ & _ & _ & ->).
  exists (read_text content). cbn [BACKUP_DIR]. split; [|split].
  - apply lookup_insert_eq.
  - exists (read_text content). split; [reflexivity|].
    rewrite read_text_read_text. exact Hparse.
  - intros file_name Hother. apply lookup_insert_ne. congruence.
Qed.

(** X13: backups of different seconds have different names: a save at one
    clock reading leaves the backup filed at any other clock reading as it
    was. *)
Theorem save_keeps_backups_of_other_seconds fs data t1 t2 :
  clock_reading t1 -> clock_reading t2 -> t1 <> t2 ->
  backup_file_name t1 <> backup_file_name t2
  /\ BACKUP_DIR (save_stock_data data t2 fs).2 !! backup_file_name t1
     = BACKUP_DIR fs !! backup_file_name t1.
Proof.
  intros H1 H2 Hdiff.
  assert (Hnames : backup_file_name t1 <> backup_file_name t2).
  { intros Hsame. apply Hdiff. exact (backup_file_name_inj _ _ H1 H2 Hsame). }
  split; [exact Hnames|].
  destruct (STOCK_FILE fs) as [content|] eqn:Hfile.
  - rewrite (save_existing _ _ _ _ Hfile). cbn [snd BACKUP_DIR].
    apply lookup_insert_ne. congruence.
  - rewrite (save_absent _ _ _ Hfile). reflexivity.
Qed.

(** X14: two saves within the same second leave one backup for the two:
    the second save files what the first one wrote under the name that held
    the backup of the original file, which is lost. *)
Theorem same_second_backup_overwritten fs original first second_one now :
  STOCK_FILE fs = Some original ->
  (save_stock_data second_one now (save_stock_data first now fs).2).2
  = {| STOCK_FILE := Some (json_dump second_one);
       BACKUP_DIR :=
         <[backup_file_name now := read_text (json_dump first)]> (BACKUP_DIR fs) |}
  /\ BACKUP_DIR (save_stock_data first now fs).2 !! backup_file_name now
     = Some (read_text original).
Proof.
  intros Hfile. rewrite (save_existing _ _ _ _ Hfile). cbn [snd].
  rewrite (save_existing
             {| STOCK_FILE := Some (json_dump first);
                BACKUP_DIR :=
                  <[backup_file_name now := read_text original]> (BACKUP_DIR fs) |}
             second_one now (json_dump first) eq_refl).
  cbn [snd BACKUP_DIR]. rewrite insert_insert_eq.
  split; [reflexivity | apply lookup_insert_eq].
Qed.

End Backups.

(** ** Consumes of different products *)

Lemma products_after_hit q rest product_id :
  id q = product_id ->
  products_after (q :: rest) product_id = with_stock q (tail (stock q)) :: rest.
Proof.
  intros Hid. unfold products_after. cbn [consume_products].
  apply Z.eqb_eq in Hid. rewrite Hid.
  destruct q as [i n im ih d pr dm [|consumed remaining]]; reflexivity.
Qed.

Lemma products_after_skip q rest product_id :
  id q <> product_id ->
  products_after (q :: rest) product_id = q :: products_after rest product_id.
Proof.
  intros Hid. unfold products_after. cbn [consume_products].
  apply Z.eqb_neq in Hid. rewrite Hid.
  destruct (consume_products rest product_id); reflexivity.
Qed.

Lemma verdict_hit q rest rest' product_id :
  id q = product_id ->
  verdict (consume_products (q :: rest) product_id)
  = verdict (consume_products (q :: rest') product_id).
Proof.
  intros Hid. cbn [consume_products]. apply Z.eqb_eq in Hid. rewrite Hid.
  destruct (stock q); reflexivity.
Qed.

Lemma verdict_skip q rest product_id :
  id q <> product_id ->
  verdict (consume_products (q :: rest) product_id)
  = verdict (consume_products rest product_id).
Proof.
  intros Hid. cbn [consume_products]. apply Z.eqb_neq in Hid. rewrite Hid.
  destruct (consume_products rest product_id); reflexivity.
Qed.

(** In one product list, a consume of [a] neither hides nor changes what a
    consume of another id [b] finds, and the two may be done in any order. *)
Lemma consume_products_apart products a b :
  a <> b ->
  verdict (consume_products (products_after products a) b)
  = verdict (consume_products products b)
  /\ products_after (products_after products a) b
     = products_after (products_after products b) a.
Proof.
  intros Hab. induction products as [|q rest [IHv IHp]]; [split; reflexivity|].
  destruct (Z.eq_dec (id q) a) as [Ha|Ha].
  - assert (Hb : id q <> b) by congruence.
    rewrite (products_after_hit _ _ _ Ha), (products_after_skip _ _ _ Hb).
    rewrite (products_after_hit _ _ _ Ha).
    rewrite (products_after_skip (with_stock q (tail (stock q))) rest b Hb).
    rewrite (verdict_skip (with_stock q (tail (stock q))) rest b Hb).
    rewrite (verdict_skip _ _ _ Hb). split; reflexivity.
  - rewrite (products_after_skip _ _ _ Ha).
    destruct (Z.eq_dec (id q) b) as [Hb|Hb].
    + rewrite !(products_after_hit _ _ _ Hb).
      rewrite (products_after_skip (with_stock q (tail (stock q))) rest a Ha).
      split; [apply (verdict_hit _ _ _ _ Hb) | reflexivity].
    + rewrite !(products_after_skip _ _ _ Hb), (products_after_skip _ _ _ Ha).
      rewrite !(verdict_skip _ _ _ Hb), IHv, IHp. split; reflexivity.
Qed.

Lemma catalog_after_cons c ps (rest : Catalog) product_id :
  catalog_after ((c, ps) :: rest) product_id =
    match verdict (consume_products ps product_id) with
    | NoMatch => (c, ps) :: catalog_after rest product_id
    | _ => (c, products_after ps product_id) :: rest
    end.
Proof.
  unfold catalog_after, products_after. cbn [consume_catalog].
  destruct (consume_products ps product_id); try reflexivity.
  destruct (consume_catalog rest product_id) as [[rest' c'] p lic| |]; reflexivity.
Qed.

Lemma held_in_cons c ps (rest : Catalog) product_id :
  held_in (consume_catalog ((c, ps) :: rest) product_id) =
    match verdict (consume_products ps product_id) with
    | Popped _ product consumed => Popped c product consumed
    | OutOfStock product => OutOfStock product
    | NoMatch => held_in (consume_catalog rest product_id)
    end.
Proof.
  cbn [consume_catalog].
  destruct (consume_products ps product_id); try reflexivity.
  destruct (consume_catalog rest product_id) as [[rest' c'] p lic| |]; reflexivity.
Qed.

(** The same for the whole catalog. *)
Lemma consume_catalog_apart stock_data a b :
  a <> b ->
  held_in (consume_catalog (catalog_after stock_data a) b)
  = held_in (consume_catalog stock_data b)
  /\ catalog_after (catalog_after stock_data a) b
     = catalog_after (catalog_after stock_data b) a.
Proof.
  intros Hab. assert (Hba : b <> a) by congruence.
  induction stock_data as [|[c ps] rest [IHv IHp]]; [split; reflexivity|].
  destruct (consume_products_apart ps a b Hab) as (Hvb & Hpp).
  destruct (consume_products_apart ps b a Hba) as (Hva & _).
  rewrite !(catalog_after_cons c ps).
  destruct (verdict (consume_products ps a)) as [[] pa la|pa|] eqn:Ea;
    destruct (verdict (consume_products ps b)) as [[] pb lb|pb|] eqn:Eb;
    rewrite ?catalog_after_cons, ?held_in_cons, ?Hvb, ?Hva, ?Ea, ?Eb, ?Hpp;
    try (split; reflexivity).
  rewrite IHv, IHp. split; reflexivity.
Qed.

Lemma catalog_after_keys stock_data product_id :
  map fst (catalog_after stock_data product_id) = map fst stock_data.
Proof.
  induction stock_data as [|[c ps] rest IH]; [reflexivity|].
  rewrite catalog_after_cons.
  destruct (verdict (consume_products ps product_id)); cbn [map fst];
    rewrite ?IH; reflexivity.
Qed.

Section Apart.
Context {json : JSON} {laws : JSONLaws}.

(** A consume request on a stored catalog that can be dumped: its answer,
    and the catalog the store file holds afterwards. *)
Lemma consume_run fs data product_id now :
  stored fs data ->
  encodable data = true ->
  (consume_stock_item product_id now fs).1
  = answer_of product_id (held_in (consume_catalog data product_id))
  /\ stored (consume_stock_item product_id now fs).2 (catalog_after data product_id).
Proof.
  intros Hstored Hdata. pose proof (stored_dict _ _ Hstored) as Hdict.
  pose proof (catalog_after_keys data product_id) as Hkeys.
  pose proof (encodable_catalog_after data product_id Hdata) as Hdump.
  pose proof Hstored as (content & Hfile & Hparse).
  rewrite (consume_on_stored _ _ _ _ _ Hfile Hparse).
  unfold catalog_after in *.
  destruct (consume_catalog data product_id) as [[data' c] p lic| |];
    cbn [fst snd held_in answer_of]; rewrite ?Hdump;
    split; try reflexivity; try exact Hstored.
  apply stored_written; [|exact Hdump].
  unfold dict_keys_unique. rewrite Hkeys. exact Hdict.
Qed.

(** X15: on a store file whose catalog can be dumped, consume requests for
    two different ids do not interfere.  Made in either order on the same
    store file, each gets the answer it would get alone, success or error,
    and both orders leave the same catalog in the store file. *)
Theorem consumes_of_different_ids_commute fs data a b t1 t2 t3 t4 :
  stored fs data ->
  encodable data = true ->
  a <> b ->
  (consume_stock_item b t2 (consume_stock_item a t1 fs).2).1
  = (consume_stock_item b t3 fs).1
  /\ (consume_stock_item a t4 (consume_stock_item b t3 fs).2).1
     = (consume_stock_item a t1 fs).1
  /\ exists final,
       stored (consume_stock_item b t2 (consume_stock_item a t1 fs).2).2 final
       /\ stored (consume_stock_item a t4 (consume_stock_item b t3 fs).2).2 final.
Proof.
  intros Hstored Hdata Hab. assert (Hba : b <> a) by congruence.
  destruct (consume_run fs data a t1 Hstored Hdata) as (Ha & Hstored_a).
  destruct (consume_run fs data b t3 Hstored Hdata) as (Hb & Hstored_b).
  destruct (consume_run _ _ b t2 Hstored_a (encodable_catalog_after _ a Hdata))
    as (Hab1 & Hstored_ab).
  destruct (consume_run _ _ a t4 Hstored_b (encodable_catalog_after _ b Hdata))
    as (Hba1 & Hstored_ba).
  destruct (consume_catalog_apart data a b Hab) as (Hvb & Hcomm).
  destruct (consume_catalog_apart data b a Hba) as (Hva & _).
  split; [|split].
  - rewrite Hab1, Hb, Hvb. reflexivity.
  - rewrite Hba1, Ha, Hva. reflexivity.
  - exists (catalog_after (catalog_after data a) b).
    split; [exact Hstored_ab|]. rewrite Hcomm. exact Hstored_ba.
Qed.

End Apart.

(** * The reference codec meets the laws *)

Lemma positive_of_bits_of_positive p :
  positive_of_bits (bits_of_positive p) = Some p.
Proof. induction p as [q IH|q IH|]; cbn; rewrite ?IH; reflexivity. Qed.

Lemma bits_of_positive_no_CR p : has_CR (bits_of_positive p) = false.
Proof. induction p as [q IH|q IH|]; cbn; rewrite ?IH; reflexivity. Qed.

Lemma reference_laws : JSONLaws (json := reference_json).
Proof.
  unfold reference_json. destruct sealed_codec as [json ->].
  split.
  - intros data Hdict Hdump. cbn.
    unfold reference_load, reference_dump, reference_escaped.
    rewrite Hdump, positive_of_bits_of_positive, decode_encode.
    rewrite decide_True by exact Hdict. reflexivity.
  - intros data Hdump. cbn. unfold reference_dump. rewrite Hdump. reflexivity.
  - intros text data. cbn. unfold reference_load.
    destruct (positive_of_bits text) as [p|]; [|discriminate].
    destruct (decode p) as [data'|]; [|discriminate].
    destruct (decide (dict_keys_unique data')) as [Hdict|]; [|discriminate].
    intros [= <-]. exact Hdict.
  - intros data. cbn. unfold reference_dump, reference_escaped.
    destruct (encodable data); [apply bits_of_positive_no_CR | reflexivity].
Qed.

(** The escaped text of a catalog loads to it, whatever its strings. *)
Lemma stored_escaped (data : Catalog) backups :
  dict_keys_unique data ->
  stored (json := reference_json)
         {| STOCK_FILE := Some (escaped data); BACKUP_DIR := backups |} data.
Proof.
  intros Hdict. exists (escaped data). split; [reflexivity|].
  unfold escaped, reference_json.
  destruct sealed_escaped as [text ->], sealed_codec as [json ->].
  cbn [proj1_sig json_load binary_codec].
  unfold reference_load, reference_escaped.
  rewrite (read_text_no_CR _ (bits_of_positive_no_CR _)).
  rewrite positive_of_bits_of_positive, decode_encode.
  rewrite decide_True by exact Hdict. reflexivity.
Qed.

(** * The statements run on the reference codec *)

#[local] Existing Instance reference_json.
#[local] Existing Instance reference_laws.

(** Settles a closed decidable proposition by evaluation. *)
Ltac by_evaluation := apply (bool_decide_unpack _); vm_compute; exact I.

(** Settles that a concrete decomposition is a first match. *)
Ltac first_match_here :=
  repeat split; repeat (constructor; [discriminate|]); constructor.

Lemma stored_holding (data : Catalog) :
  dict_keys_unique data -> encodable data = true -> stored (holding data) data.
Proof. apply stored_written. Qed.

(** Settles that the dump of a concrete catalog is stored. *)
Ltac holds_it := apply stored_holding; [by_evaluation | reflexivity].

Lemma stored_cursed : stored cursed_files cursed.
Proof. apply stored_escaped. by_evaluation. Qed.

Lemma first_of_cursed :
  first_match cursed 1 [] "A" [] (item 1 "one" ["k1"; lone_surrogate]) []
              [("B", [item 1 "twin" ["k2"]])].
Proof. first_match_here. Qed.

Lemma consume_on_absent {json : JSON} fs product_id now :
  STOCK_FILE fs = None ->
  consume_catalog default_data product_id = NoMatch ->
  consume_stock_item product_id now fs =
    (Raise (HTTPException 404),
     {| STOCK_FILE := Some (json_dump default_data); BACKUP_DIR := BACKUP_DIR fs |}).
Proof.
  intros Hfile Hscan.
  unfold consume_stock_item, except_HTTPException_reraise, try_except, bind.
  rewrite (load_absent _ _ Hfile), Hscan. reflexivity.
Qed.

(** The first holder of the id 1 in [cursed] has two stock items, and the
    consume of the first of them raises 500 and leaves a store file that does
    not load: C1 does not hold as it is stated. *)
Lemma consume_raises_on_surrogate :
  stored cursed_files cursed
  /\ first_match cursed 1 [] "A" [] (item 1 "one" ["k1"; lone_surrogate]) []
                 [("B", [item 1 "twin" ["k2"]])]
  /\ stock (item 1 "one" ["k1"; lone_surrogate]) = [key "k1"; key lone_surrogate]
  /\ exists fs',
       consume_stock_item 1 noon cursed_files = (Raise (HTTPException 500), fs')
       /\ unreadable fs'.
Proof.
  split; [exact stored_cursed|]. split; [exact first_of_cursed|].
  split; [reflexivity|].
  destruct (consume_dump_raises cursed_files cursed 1 noon _ _ _ _ _ _
              (key "k1") [key lone_surrogate]
              stored_cursed first_of_cursed eq_refl eq_refl)
    as (fs' & Hrun & _ & Hbad).
  exists fs'. split; assumption.
Qed.

Lemma consume_stock_item_outcomes_run :
  (exists fs',
      consume_stock_item 5 noon (holding twice_7) =
        (Return {| success := true;
                   product_id := 5;
                   product_name := "five";
                   category := "A";
                   consumed_license := key "k1";
                   remaining_stock := 2;
                   message := "Stock item consumed successfully" |}, fs')
      /\ STOCK_FILE fs' =
           Some (json_dump
                   [ ("A", [ item 5 "five" ["k2"; "k3"];
                             item 7 "seven" ["k0"];
                             item 9 "nine" [] ]);
                     ("B", [ item 7 "again" ["k4"] ]) ])
      /\ stored fs'
           [ ("A", [ item 5 "five" ["k2"; "k3"];
                     item 7 "seven" ["k0"];
                     item 9 "nine" [] ]);
             ("B", [ item 7 "again" ["k4"] ]) ])
  /\ (exists fs',
         consume_stock_item 1 noon cursed_files = (Raise (HTTPException 500), fs')
         /\ STOCK_FILE fs' =
              Some (json_dump
                      [ ("A", [ item 1 "one" [lone_surrogate] ]);
                        ("B", [ item 1 "twin" ["k2"] ]) ])
         /\ unreadable fs')
  /\ consume_stock_item 9 noon (holding twice_7)
     = (Raise (HTTPException 400), holding twice_7)
  /\ consume_stock_item 99 noon (holding twice_7)
     = (Raise (HTTPException 404), holding twice_7).
Proof.
  assert (Hstored : stored (holding twice_7) twice_7) by holds_it.
  split; [|split; [|split]].
  - destruct (consume_stock_item_outcomes (holding twice_7) twice_7 5 noon Hstored)
      as (Hpop & _).
    apply (Hpop [] "A" [] (item 5 "five" ["k1"; "k2"; "k3"])
                [item 7 "seven" ["k0"]; item 9 "nine" []]
                [("B", [item 7 "again" ["k4"]])] (key "k1") [key "k2"; key "k3"]).
    + first_match_here.
    + reflexivity.
    + reflexivity.
  - destruct (consume_stock_item_outcomes cursed_files cursed 1 noon stored_cursed)
      as (_ & Hraise & _).
    apply (Hraise [] "A" [] (item 1 "one" ["k1"; lone_surrogate]) []
                  [("B", [item 1 "twin" ["k2"]])] (key "k1") [key lone_surrogate]).
    + first_match_here.
    + reflexivity.
    + reflexivity.
  - destruct (consume_stock_item_outcomes (holding twice_7) twice_7 9 noon Hstored)
      as (_ & _ & Hempty & _).
    apply (Hempty [] "A" [item 5 "five" ["k1"; "k2"; "k3"]; item 7 "seven" ["k0"]]
                  (item 9 "nine" []) [] [("B", [item 7 "again" ["k4"]])]).
    + first_match_here.
    + reflexivity.
  - destruct (consume_stock_item_outcomes (holding twice_7) twice_7 99 noon Hstored)
      as (_ & _ & _ & Hnone & _).
    apply Hnone. cbn. repeat (constructor; [discriminate|]). constructor.
Defined.

(** The first holder of the id 1 in [cursed] has exactly 2 stock items, and
    of 2 consume requests in a row none succeeds: C2 does not hold as it is
    stated. *)
Lemma two_consumes_raise_on_surrogate :
  stored cursed_files cursed
  /\ first_match cursed 1 [] "A" [] (item 1 "one" ["k1"; lone_surrogate]) []
                 [("B", [item 1 "twin" ["k2"]])]
  /\ length (stock (item 1 "one" ["k1"; lone_surrogate])) = 2
  /\ (consume_each 1 [noon; midnight] cursed_files).1
     = [Raise (HTTPException 500); Raise (HTTPException 500)].
Proof.
  split; [exact stored_cursed|]. split; [exact first_of_cursed|].
  split; [reflexivity|].
  destruct (consume_dump_raises cursed_files cursed 1 noon _ _ _ _ _ _
              (key "k1") [key lone_surrogate]
              stored_cursed first_of_cursed eq_refl eq_refl)
    as (fs' & Hrun & _ & Hbad).
  cbn [consume_each]. rewrite Hrun.
  rewrite (consume_on_unreadable fs' 1 midnight Hbad). reflexivity.
Qed.

Lemma consume_each_fifo_run :
  exists fs',
    consume_each 5 [noon; noon; midnight] (holding twice_7) =
      ([ Return {| success := true; product_id := 5; product_name := "five";
                   category := "A"; consumed_license := key "k1";
                   remaining_stock := 2;
                   message := "Stock item consumed successfully" |};
         Return {| success := true; product_id := 5; product_name := "five";
                   category := "A"; consumed_license := key "k2";
                   remaining_stock := 1;
                   message := "Stock item consumed successfully" |};
         Return {| success := true; product_id := 5; product_name := "five";
                   category := "A"; consumed_license := key "k3";
                   remaining_stock := 0;
                   message := "Stock item consumed successfully" |} ], fs')
    /\ stored fs'
         [ ("A", [ item 5 "five" []; item 7 "seven" ["k0"]; item 9 "nine" [] ]);
           ("B", [ item 7 "again" ["k4"] ]) ]
    /\ forall now,
         consume_stock_item 5 now fs' = (Raise (HTTPException 400), fs').
Proof.
  apply (consume_each_fifo (holding twice_7) twice_7 5 [noon; noon; midnight]
           [] "A" [] (item 5 "five" ["k1"; "k2"; "k3"])
           [item 7 "seven" ["k0"]; item 9 "nine" []]
           [("B", [item 7 "again" ["k4"]])]).
  - holds_it.
  - first_match_here.
  - intros consumed remaining Hstock. injection Hstock as <- <-. reflexivity.
  - reflexivity.
Defined.

Lemma load_without_file_seeds_run :
  (exists fs1,
      load_stock_data noon no_files = (Return default_data, fs1)
      /\ STOCK_FILE fs1 = Some (json_dump default_data)
      /\ BACKUP_DIR fs1 = ∅
      /\ load_stock_data midnight fs1 = (Return default_data, fs1))
  /\ (save_stock_data twice_7 noon no_files).1 = Return true
  /\ load_stock_data midnight (save_stock_data twice_7 noon no_files).2
     = (Return twice_7, (save_stock_data twice_7 noon no_files).2).
Proof.
  destruct (load_without_file_seeds no_files noon midnight eq_refl)
    as (Hfirst & _ & Hround).
  split; [exact Hfirst|]. apply Hround; [by_evaluation | reflexivity].
Defined.

(** Without a store file a consume that raises 404, and a mere listing, have
    written the store file; and a consume whose save raises has taken the
    backup and written over the store file before it answers 500: C4 does not
    hold as it is stated. *)
Lemma failed_request_writes_seed :
  STOCK_FILE no_files = None
  /\ (consume_stock_item 99 noon no_files).1 = Raise (HTTPException 404)
  /\ STOCK_FILE (consume_stock_item 99 noon no_files).2
     = Some (json_dump default_data)
  /\ (consume_stock_item 99 noon no_files).2 <> no_files
  /\ STOCK_FILE (get_all_products noon no_files).2
     = Some (json_dump default_data)
  /\ (get_all_products noon no_files).2 <> no_files
  /\ (consume_stock_item 1 noon cursed_files).1 = Raise (HTTPException 500)
  /\ BACKUP_DIR (consume_stock_item 1 noon cursed_files).2
       !! "stock_backup_20250715_120009.json" = Some (read_text (escaped cursed))
  /\ BACKUP_DIR cursed_files !! "stock_backup_20250715_120009.json" = None.
Proof.
  split; [reflexivity|].
  rewrite (consume_on_absent no_files 99 noon eq_refl eq_refl).
  split; [reflexivity|]. split; [reflexivity|]. split; [discriminate|].
  unfold get_all_products, except_Exception_500, try_except, bind.
  rewrite (load_absent no_files noon eq_refl).
  split; [reflexivity|]. split; [discriminate|].
  pose proof stored_cursed as (content & Hfile & Hparse).
  injection Hfile as <-.
  rewrite (consume_on_stored cursed_files (escaped cursed) cursed 1 noon
             eq_refl Hparse).
  split; [reflexivity|]. split; [apply lookup_insert_eq | reflexivity].
Qed.

Lemma only_load_and_consume_write_run :
  (get_all_products noon (holding twice_7)).2 = holding twice_7
  /\ (consume_stock_item 99 noon (holding twice_7)).2 = holding twice_7
  /\ (get_product 99 noon no_files).2
     = {| STOCK_FILE := Some (json_dump default_data); BACKUP_DIR := ∅ |}.
Proof.
  destruct (only_load_and_consume_write (holding twice_7) noon 99 "A")
    as (_ & Hlist & _ & _ & _ & _ & _ & Hconsume & Hexists & _).
  destruct (only_load_and_consume_write no_files noon 99 "A")
    as (_ & _ & Hget & _ & _ & _ & _ & _ & _ & Habsent).
  assert (Hstored : stored (holding twice_7) twice_7) by holds_it.
  assert (Hnone : no_product_with 99 (all_products twice_7))
    by (cbn; repeat (constructor; [discriminate|]); constructor).
  pose proof (consume_unknown (holding twice_7) twice_7 99 noon Hstored Hnone)
    as Hraises.
  split; [|split].
  - rewrite Hlist. apply Hexists. eexists. reflexivity.
  - rewrite (Hconsume 404%Z (or_introl eq_refl)).
    + apply Hexists. eexists. reflexivity.
    + rewrite Hraises. reflexivity.
  - rewrite Hget. apply Habsent. reflexivity.
Defined.

Lemma dashboard_totals_run :
  (exists stats,
      get_dashboard_stats noon (holding twice_7) = (Return stats, holding twice_7)
      /\ total_categories stats = 2
      /\ total_products stats = 4
      /\ total_stock_items stats = 5
      /\ low_stock_count stats = 4)
  /\ (exists stats fs',
         get_dashboard_stats noon no_files = (Return stats, fs')
         /\ total_categories stats = 2
         /\ total_products stats = 2
         /\ total_stock_items stats = 6
         /\ low_stock_count stats = 1).
Proof.
  split.
  - apply (proj1 (dashboard_totals (holding twice_7) twice_7 noon)).
    holds_it.
  - apply (proj2 (dashboard_totals no_files default_data noon)).
    right. reflexivity.
Defined.

Lemma get_product_by_id_run :
  get_product 7 noon (holding shelf)
  = (Return (item 7 "again" ["k4"]), holding shelf)
  /\ get_product 99 noon (holding shelf)
     = (Raise (HTTPException 404), holding shelf).
Proof.
  assert (Hstored : stored (holding shelf) shelf) by holds_it.
  assert (Hunique : NoDup (map id (all_products shelf))) by by_evaluation.
  destruct (get_product_by_id (holding shelf) shelf noon Hstored Hunique)
    as (Hheld & Hnone).
  split.
  - apply (Hheld (item 7 "again" ["k4"])). cbn.
    repeat first [apply list_elem_of_here | apply list_elem_of_further].
  - apply Hnone. intros q Hq. cbn in Hq.
    repeat (apply elem_of_cons in Hq as [->|Hq]; [discriminate|]).
    inversion Hq.
Defined.

(** The backup of a store file with "\r\n" line ends is not the file; and
    the save of a catalog that holds a lone surrogate raises 500 after it has
    taken the backup: C7 does not hold as it is stated. *)
Lemma backup_of_crlf_differs :
  STOCK_FILE crlf_files = Some crlf_text
  /\ BACKUP_DIR (save_stock_data [] noon crlf_files).2
       !! "stock_backup_20250715_120009.json" = Some lf_text
  /\ lf_text <> crlf_text
  /\ (save_stock_data cursed noon plain_files).1 = Raise (HTTPException 500)
  /\ BACKUP_DIR (save_stock_data cursed noon plain_files).2
       !! "stock_backup_20250715_120009.json" = Some "{}".
Proof.
  split; [reflexivity|]. split; [|split; [discriminate|]].
  - rewrite (save_existing crlf_files [] noon crlf_text eq_refl).
    apply lookup_insert_eq.
  - rewrite (save_existing plain_files cursed noon "{}" eq_refl).
    split; [reflexivity | apply lookup_insert_eq].
Qed.

Lemma save_backs_up_then_overwrites_run :
  save_stock_data twice_7 noon plain_files =
    (Return true,
     {| STOCK_FILE := Some (json_dump twice_7);
        BACKUP_DIR := <["stock_backup_20250715_120009.json" := "{}"]> ∅ |})
  /\ save_stock_data twice_7 noon no_files =
       (Return true, {| STOCK_FILE := Some (json_dump twice_7); BACKUP_DIR := ∅ |})
  /\ save_stock_data cursed noon plain_files =
       (Raise (HTTPException 500),
        {| STOCK_FILE := Some (json_dump cursed);
           BACKUP_DIR := <["stock_backup_20250715_120009.json" := "{}"]> ∅ |}).
Proof.
  destruct (save_backs_up_then_overwrites plain_files twice_7 noon)
    as (Hexists & _ & Hreturns & _).
  destruct (Hexists "{}" eq_refl) as (Hsave & Hverbatim).
  destruct (save_backs_up_then_overwrites no_files twice_7 noon)
    as (_ & Habsent & _).
  destruct (save_backs_up_then_overwrites plain_files cursed noon)
    as (Hexists' & _ & _ & Hraises & _).
  destruct (Hexists' "{}" eq_refl) as (Hsave' & Hverbatim').
  split; [|split].
  - rewrite Hsave, (Hverbatim eq_refl), (Hreturns eq_refl). reflexivity.
  - rewrite (Habsent eq_refl), (Hreturns eq_refl). reflexivity.
  - rewrite Hsave', (Hverbatim' eq_refl), (Hraises eq_refl). reflexivity.
Defined.

Lemma consume_changes_only_that_stock_run :
  exists pre category before product after post remaining product',
    twice_7 = pre ++ (category, before ++ product :: after) :: post
    /\ id product = 7%Z
    /\ stock product = key "k0" :: remaining
    /\ stored {| STOCK_FILE :=
                   Some (json_dump
                           [ ("A", [ item 5 "five" ["k1"; "k2"; "k3"];
                                     item 7 "seven" [];
                                     item 9 "nine" [] ]);
                             ("B", [ item 7 "again" ["k4"] ]) ]);
                 BACKUP_DIR :=
                   <[backup_file_name noon := read_text (json_dump twice_7)]> ∅ |}
              (pre ++ (category, before ++ product' :: after) :: post)
    /\ id product' = id product
    /\ name product' = name product
    /\ image product' = image product
    /\ imagehover product' = imagehover product
    /\ description product' = description product
    /\ price product' = price product
    /\ delivery_method product' = delivery_method product
    /\ stock product' = remaining.
Proof.
  assert (Hstored : stored (holding twice_7) twice_7) by holds_it.
  assert (Hparse : json_load (read_text (json_dump twice_7)) = Some twice_7).
  { rewrite (read_text_no_CR _ (json_dump_no_CR twice_7)).
    apply json_load_dump; [by_evaluation | reflexivity]. }
  apply (consume_changes_only_that_stock (holding twice_7) twice_7 7 noon
           {| success := true; product_id := 7; product_name := "seven";
              category := "A"; consumed_license := key "k0";
              remaining_stock := 0;
              message := "Stock item consumed successfully" |}
           _ Hstored).
  rewrite (consume_on_stored (holding twice_7) (json_dump twice_7) twice_7 7 noon
             eq_refl Hparse).
  reflexivity.
Defined.

(** In [cursed] the id 1 is held twice; the consume raises 500 and leaves a
    store file that does not load, so that the later holder of the id is no
    longer in the store: C9 does not hold as it is stated. *)
Lemma duplicate_lost_on_surrogate :
  stored cursed_files cursed
  /\ first_match cursed 1 [] "A" [] (item 1 "one" ["k1"; lone_surrogate]) []
                 [("B", [item 1 "twin" ["k2"]])]
  /\ exists fs',
       consume_stock_item 1 noon cursed_files = (Raise (HTTPException 500), fs')
       /\ (forall data, ~ stored fs' data)
       /\ get_product_stock 1 midnight fs' = (Raise (HTTPException 500), fs').
Proof.
  split; [exact stored_cursed|]. split; [exact first_of_cursed|].
  destruct (consume_dump_raises cursed_files cursed 1 noon _ _ _ _ _ _
              (key "k1") [key lone_surrogate]
              stored_cursed first_of_cursed eq_refl eq_refl)
    as (fs' & Hrun & _ & Hbad).
  exists fs'. split; [exact Hrun|]. split.
  - intros data. exact (unreadable_not_stored _ _ Hbad).
  - unfold get_product_stock, except_HTTPException_reraise, try_except, bind.
    rewrite (load_unreadable _ _ Hbad). reflexivity.
Qed.

Lemma duplicates_first_match_run :
  get_product 7 noon (holding twice_7)
  = (Return (item 7 "seven" ["k0"]), holding twice_7)
  /\ get_product_stock 7 noon (holding twice_7)
     = (Return {| summary_product_id := 7;
                  summary_product_name := "seven";
                  summary_category := "A";
                  stock_count := 1;
                  available := true;
                  summary_delivery_method := "instant" |}, holding twice_7)
  /\ exists fs',
       consume_stock_item 7 noon (holding twice_7) =
         (Return {| success := true; product_id := 7; product_name := "seven";
                    category := "A"; consumed_license := key "k0";
                    remaining_stock := 0;
                    message := "Stock item consumed successfully" |}, fs')
       /\ stored fs'
            [ ("A", [ item 5 "five" ["k1"; "k2"; "k3"];
                      item 7 "seven" [];
                      item 9 "nine" [] ]);
              ("B", [ item 7 "again" ["k4"] ]) ].
Proof.
  apply (duplicates_first_match (holding twice_7) twice_7 7 noon
           [] "A" [item 5 "five" ["k1"; "k2"; "k3"]] (item 7 "seven" ["k0"])
           [item 9 "nine" []] [("B", [item 7 "again" ["k4"]])]).
  - holds_it.
  - first_match_here.
Defined.

Lemma reads_depend_on_store_file_only_run :
  (get_all_products noon (holding twice_7)).1
  = (get_all_products midnight (holding_with_backup twice_7)).1
  /\ (get_product 7 noon (holding twice_7)).1
     = (get_product 7 midnight (holding_with_backup twice_7)).1
  /\ (get_categories noon (holding twice_7)).1
     = (get_categories midnight (holding_with_backup twice_7)).1
  /\ (get_products_by_category "B" noon (holding twice_7)).1
     = (get_products_by_category "B" midnight (holding_with_backup twice_7)).1
  /\ (get_product_stock 7 noon (holding twice_7)).1
     = (get_product_stock 7 midnight (holding_with_backup twice_7)).1.
Proof.
  apply (reads_depend_on_store_file_only (holding twice_7)
           (holding_with_backup twice_7) noon midnight 7 "B").
  reflexivity.
Defined.

(** ** The further properties run on the reference codec *)

Lemma reference_rejects_braces : unreadable plain_files.
Proof.
  exists "{}". split; [reflexivity|].
  unfold reference_json. destruct sealed_codec as [json ->]. reflexivity.
Qed.

Lemma stored_twice_7 : stored (holding twice_7) twice_7.
Proof. holds_it. Qed.

Lemma sale_of_7 : consume_stock_item 7 noon (holding twice_7) = (Return sold_7, after_sale).
Proof.
  assert (Hparse : json_load (read_text (json_dump twice_7)) = Some twice_7).
  { rewrite (read_text_no_CR _ (json_dump_no_CR twice_7)).
    apply json_load_dump; [by_evaluation | reflexivity]. }
  rewrite (consume_on_stored (holding twice_7) (json_dump twice_7) twice_7 7 noon
             eq_refl Hparse).
  reflexivity.
Qed.

Lemma get_all_products_flattens_run :
  get_all_products noon (holding twice_7)
  = (Return [ item 5 "five" ["k1"; "k2"; "k3"]; item 7 "seven" ["k0"];
              item 9 "nine" []; item 7 "again" ["k4"] ], holding twice_7).
Proof.
  exact (proj1 (get_all_products_flattens (holding twice_7) twice_7 noon
                  stored_twice_7)).
Defined.

Lemma categories_count_all_products_run :
  exists categories listed,
    get_categories noon (holding twice_7) = (Return categories, holding twice_7)
    /\ get_all_products noon (holding twice_7) = (Return listed, holding twice_7)
    /\ map summary_name categories = ["A"; "B"]
    /\ map product_count categories = [3; 1]
    /\ sum_list_with product_count categories = length listed.
Proof.
  exact (categories_count_all_products (holding twice_7) twice_7 noon
           stored_twice_7).
Defined.

Lemma categories_partition_products_run :
  get_products_by_category "C" noon (holding twice_7)
  = (Raise (HTTPException 404), holding twice_7)
  /\ get_products_by_category "B" noon (holding twice_7)
     = (Return {| listed_category := "B";
                  listed_products := [item 7 "again" ["k4"]] |}, holding twice_7).
Proof.
  destruct (categories_partition_products (holding twice_7) twice_7 noon
              stored_twice_7) as (Hnone & Hentry & _).
  split.
  - apply Hnone. cbn. intros Hin.
    repeat (apply elem_of_cons in Hin as [Hin|Hin]; [discriminate|]).
    inversion Hin.
  - apply Hentry. cbn. apply list_elem_of_further, list_elem_of_here.
Defined.

Lemma get_product_is_first_listed_run :
  exists listed,
    get_all_products noon (holding twice_7) = (Return listed, holding twice_7)
    /\ get_product 7 noon (holding twice_7) =
         match List.find (has_id 7) listed with
         | Some product => (Return product, holding twice_7)
         | None => (Raise (HTTPException 404), holding twice_7)
         end.
Proof.
  exact (get_product_is_first_listed (holding twice_7) twice_7 7 noon
           stored_twice_7).
Defined.

Lemma availability_predicts_consume_run :
  ((exists summary,
       get_product_stock 5 noon (holding twice_7) = (Return summary, holding twice_7)
       /\ available summary = true
       /\ exists response fs',
            consume_stock_item 5 midnight (holding twice_7) = (Return response, fs')
            /\ S (remaining_stock response) = stock_count summary
            /\ product_name response = summary_product_name summary
            /\ category response = summary_category summary)
   \/ (exists summary,
          get_product_stock 5 noon (holding twice_7)
          = (Return summary, holding twice_7)
          /\ available summary = false
          /\ stock_count summary = 0
          /\ consume_stock_item 5 midnight (holding twice_7)
             = (Raise (HTTPException 400), holding twice_7))
   \/ (get_product_stock 5 noon (holding twice_7)
       = (Raise (HTTPException 404), holding twice_7)
       /\ consume_stock_item 5 midnight (holding twice_7)
          = (Raise (HTTPException 404), holding twice_7)))
  /\ ((exists summary,
          get_product_stock 1 noon cursed_files = (Return summary, cursed_files)
          /\ available summary = true
          /\ exists fs',
               consume_stock_item 1 midnight cursed_files
               = (Raise (HTTPException 500), fs'))
      \/ (exists summary,
             get_product_stock 1 noon cursed_files = (Return summary, cursed_files)
             /\ available summary = false
             /\ stock_count summary = 0
             /\ consume_stock_item 1 midnight cursed_files
                = (Raise (HTTPException 400), cursed_files))
      \/ (get_product_stock 1 noon cursed_files
          = (Raise (HTTPException 404), cursed_files)
          /\ consume_stock_item 1 midnight cursed_files
             = (Raise (HTTPException 404), cursed_files))).
Proof.
  split.
  - exact (availability_predicts_consume (holding twice_7) twice_7 5 noon midnight
             stored_twice_7).
  - exact (availability_predicts_consume cursed_files cursed 1 noon midnight
             stored_cursed).
Defined.

Lemma consume_then_stock_summary_run :
  exists summary,
    get_product_stock 7 midnight after_sale = (Return summary, after_sale)
    /\ stock_count summary = 0
    /\ available summary = false
    /\ summary_product_name summary = "seven"
    /\ summary_category summary = "A".
Proof.
  exact (consume_then_stock_summary (holding twice_7) twice_7 7 noon midnight
           sold_7 after_sale stored_twice_7 sale_of_7).
Defined.

Lemma consume_keeps_other_ids_run :
  (get_product 5 midnight after_sale).1 = (get_product 5 noon (holding twice_7)).1
  /\ (get_product_stock 5 midnight after_sale).1
     = (get_product_stock 5 noon (holding twice_7)).1.
Proof.
  apply (consume_keeps_other_ids (holding twice_7) twice_7 7 5 noon midnight
           sold_7 after_sale stored_twice_7 sale_of_7).
  discriminate.
Defined.

Lemma consume_moves_totals_run :
  exists stats stats',
    get_dashboard_stats noon (holding twice_7) = (Return stats, holding twice_7)
    /\ get_dashboard_stats midnight after_sale = (Return stats', after_sale)
    /\ total_categories stats' = total_categories stats
    /\ total_products stats' = total_products stats
    /\ S (total_stock_items stats') = total_stock_items stats
    /\ low_stock_count stats <= low_stock_count stats'
    /\ (get_categories midnight after_sale).1
       = (get_categories noon (holding twice_7)).1.
Proof.
  exact (consume_moves_totals (holding twice_7) twice_7 7 noon noon midnight
           sold_7 after_sale stored_twice_7 sale_of_7).
Defined.

Lemma low_stock_products_listing_run :
  exists stats,
    get_dashboard_stats noon (holding default_data)
    = (Return stats, holding default_data)
    /\ map low_id (low_stock_products stats) = [1%Z]
    /\ map low_stock (low_stock_products stats) = [2].
Proof.
  destruct (low_stock_products_listing (holding default_data) default_data noon)
    as (stats & Hrun & Hlist & _).
  { holds_it. }
  exists stats. split; [exact Hrun|]. rewrite Hlist. split; reflexivity.
Defined.

Lemma health_check_never_raises_run :
  health_check noon plain_files
  = (Return (unhealthy (HTTPException 500)), plain_files)
  /\ health_check noon no_files
     = (Return (healthy noon),
        {| STOCK_FILE := Some (json_dump default_data); BACKUP_DIR := ∅ |}).
Proof.
  split.
  - apply (proj1 (proj2 (health_check_never_raises plain_files noon))).
    exact reference_rejects_braces.
  - apply (proj2 (proj2 (health_check_never_raises no_files noon))).
    intros (content & Hfile & _). discriminate.
Defined.

Lemma unreadable_store_answers_500_run :
  get_all_products noon plain_files = (Raise (HTTPException 500), plain_files)
  /\ get_product 1 noon plain_files = (Raise (HTTPException 500), plain_files)
  /\ get_categories noon plain_files = (Raise (HTTPException 500), plain_files)
  /\ get_products_by_category "A" noon plain_files
     = (Raise (HTTPException 500), plain_files)
  /\ get_product_stock 1 noon plain_files
     = (Raise (HTTPException 500), plain_files)
  /\ consume_stock_item 1 noon plain_files
     = (Raise (HTTPException 500), plain_files)
  /\ get_dashboard_stats noon plain_files
     = (Raise (HTTPException 500), plain_files).
Proof.
  exact (unreadable_store_answers_500 plain_files noon 1 "A"
           reference_rejects_braces).
Defined.

Lemma consume_backup_restores_run :
  exists backup,
    BACKUP_DIR after_sale !! backup_file_name noon = Some backup
    /\ stored {| STOCK_FILE := Some backup; BACKUP_DIR := BACKUP_DIR after_sale |}
              twice_7
    /\ forall file_name,
         file_name <> backup_file_name noon ->
         BACKUP_DIR after_sale !! file_name
         = BACKUP_DIR (holding twice_7) !! file_name.
Proof.
  exact (consume_backup_restores (holding twice_7) twice_7 7 noon sold_7
           after_sale stored_twice_7 sale_of_7).
Defined.

Lemma save_keeps_backups_of_other_seconds_run :
  backup_file_name noon <> backup_file_name midnight
  /\ BACKUP_DIR (save_stock_data twice_7 midnight after_sale).2
       !! backup_file_name noon
     = BACKUP_DIR after_sale !! backup_file_name noon.
Proof.
  apply (save_keeps_backups_of_other_seconds after_sale twice_7 noon midnight).
  - unfold clock_reading. cbn [noon year month day hour minute second]. lia.
  - unfold clock_reading. cbn [midnight year month day hour minute second]. lia.
  - discriminate.
Defined.

Lemma same_second_backup_overwritten_run :
  (save_stock_data twice_7 noon (save_stock_data shelf noon plain_files).2).2
  = {| STOCK_FILE := Some (json_dump twice_7);
       BACKUP_DIR := <[backup_file_name noon := read_text (json_dump shelf)]> ∅ |}
  /\ BACKUP_DIR (save_stock_data shelf noon plain_files).2 !! backup_file_name noon
     = Some (read_text "{}").
Proof.
  exact (same_second_backup_overwritten plain_files "{}" shelf twice_7 noon
           eq_refl).
Defined.

Lemma consumes_of_different_ids_commute_run :
  (consume_stock_item 9 midnight (consume_stock_item 5 noon (holding twice_7)).2).1
  = (consume_stock_item 9 midnight (holding twice_7)).1
  /\ (consume_stock_item 5 noon (consume_stock_item 9 midnight (holding twice_7)).2).1
     = (consume_stock_item 5 noon (holding twice_7)).1
  /\ exists final,
       stored (consume_stock_item 9 midnight
                 (consume_stock_item 5 noon (holding twice_7)).2).2 final
       /\ stored (consume_stock_item 5 noon
                    (consume_stock_item 9 midnight (holding twice_7)).2).2 final.
Proof.
  apply (consumes_of_different_ids_commute (holding twice_7) twice_7 5 9
           noon midnight midnight noon stored_twice_7 eq_refl).
  discriminate.
Defined.
